(** * finger-ban: gesture classifier, region redactor and detection counter

    A shallow embedding of [src/main.py] (class [FingerBanDetector] and the
    capture loop of [main]) and of the demo classifier of
    [src/setup_check.py], followed by the properties of the specification
    that were checked against it.

    Conventions of the embedding:
    - a Python [float] is an IEEE-754 binary64 value, here a [spec_float]
      of the standard library with [prec = 53] and [emax = 1024]; the
      properties are proved for every [spec_float], so for every binary64
      value, and the sample data are binary64 values;
    - a Python [int] is a [Z];
    - a Python call that may raise returns a [result]: [Ok v] for a normal
      return, [Raise e] for an exception; [try: ... except Exception] is
      [try_except];
    - a numpy array of three dimensions is its shape together with its
      element map ([ndarray]);
    - the external collaborators (OpenCV's blur and drawing calls, the
      MediaPipe landmark provider) are parameters of the sections that use
      them. *)

From Stdlib Require Import ZArith List Bool Lia.
From Stdlib Require Import Floats.SpecFloat.
From Stdlib Require String.
Import ListNotations.
Import String.StringSyntax.
Delimit Scope string_scope with string.

Local Open Scope Z_scope.

(** ** Python values and exceptions *)

Module Py.

(** The exception classes that the embedded code can meet. All of them
    derive from [Exception]. *)
Inductive exn : Type :=
| IndexError
| ValueError
| OverflowError
| cv2_error
| OtherException.

Inductive result (A : Type) : Type :=
| Ok (a : A)
| Raise (e : exn).

Arguments Ok {A} a.
Arguments Raise {A} e.

Definition bind {A B : Type} (r : result A) (k : A -> result B) : result B :=
  match r with
  | Ok a => k a
  | Raise e => Raise e
  end.

(** [try: body except Exception as e: handler e] *)
Definition try_except {A : Type} (body : result A) (handler : exn -> result A)
  : result A :=
  match body with
  | Ok a => Ok a
  | Raise e => handler e
  end.

(** A list comprehension [[f v for v in l]] whose element expression may
    raise: elements are evaluated left to right and the first exception
    ends the comprehension. *)
Fixpoint comprehension {A B : Type} (f : A -> result B) (l : list A)
  : result (list B) :=
  match l with
  | [] => Ok []
  | v :: l' =>
      bind (f v) (fun b =>
      bind (comprehension f l') (fun bs => Ok (b :: bs)))
  end.

(** [l[i]] for a sequence [l] and a literal index [i >= 0]. *)
Definition getitem {A : Type} (l : list A) (i : nat) : result A :=
  match nth_error l i with
  | Some v => Ok v
  | None => Raise IndexError
  end.

(** [min(l)] and [max(l)] on a list of ints; both raise [ValueError] on
    an empty list. *)
Definition min (l : list Z) : result Z :=
  match l with
  | [] => Raise ValueError
  | v :: l' => Ok (fold_left Z.min l' v)
  end.

Definition max (l : list Z) : result Z :=
  match l with
  | [] => Raise ValueError
  | v :: l' => Ok (fold_left Z.max l' v)
  end.

(** *** Floats *)

Definition float : Type := spec_float.

Definition prec : Z := 53.
Definition emax : Z := 1024.

(** [a < b], [a > b], [a == b] on floats: false as soon as one side is
    NaN. *)
Definition lt (a b : float) : bool := SFltb a b.
Definition gt (a b : float) : bool := SFltb b a.
Definition eq (a b : float) : bool := SFeqb a b.

(** The floats that are binary64 values: a finite one has a canonical
    mantissa and exponent. *)
Definition binary64 (a : float) : Prop := valid_binary prec emax a = true.

(** [math.isfinite(a)] *)
Definition isfinite (a : float) : bool :=
  match a with
  | S754_zero _ | S754_finite _ _ _ => true
  | _ => false
  end.

(** The exact value of a finite float in units of [2^u], for [u] at most
    its exponent: [scaled u a * 2^u] is the real number that [a] stands
    for. *)
Definition signed (s : bool) (m : positive) : Z :=
  if s then Zneg m else Zpos m.

Definition scaled (u : Z) (a : float) : Z :=
  match a with
  | S754_finite s m e => signed s m * 2 ^ (e - u)
  | _ => 0
  end.

Definition exponent_or (d : Z) (a : float) : Z :=
  match a with
  | S754_finite _ _ e => e
  | _ => d
  end.

Definition common_unit (a b : float) : Z :=
  Z.min (exponent_or (exponent_or 0 b) a) (exponent_or (exponent_or 0 a) b).

(** The order of the exact values of two finite floats. *)
Definition exact_lt (a b : float) : Prop :=
  scaled (common_unit a b) a < scaled (common_unit a b) b.

Definition sub (a b : float) : float := SFsub prec emax a b.
Definition abs (a : float) : float := SFabs a.

(** [float(n)] for an int [n], as the mixed operation [a * n] performs
    it: round to nearest even, [OverflowError] beyond the range. *)
Definition float_of_int (n : Z) : result float :=
  match binary_normalize prec emax n 0 false with
  | S754_infinity _ => Raise OverflowError
  | f => Ok f
  end.

(** [a * n] for a float [a] and an int [n]. *)
Definition mul_int (a : float) (n : Z) : result float :=
  bind (float_of_int n) (fun b => Ok (SFmul prec emax a b)).

(** [int(a)]: truncation toward zero; NaN raises [ValueError], an
    infinity raises [OverflowError]. *)
Definition int (a : float) : result Z :=
  match a with
  | S754_zero _ => Ok 0
  | S754_finite s m e =>
      let t := Z.shiftl (Zpos m) e in
      Ok (if s then - t else t)
  | S754_infinity _ => Raise OverflowError
  | S754_nan => Raise ValueError
  end.

(** The float denoted by the decimal literal [m / 10^d], for [m] and
    [10^d] below [2^53]: both are then exact as floats and the division
    rounds their quotient correctly, as the literal does. *)
Definition decimal (m : Z) (d : nat) : float :=
  SFdiv prec emax
    (binary_normalize prec emax m 0 false)
    (binary_normalize prec emax (10 ^ Z.of_nat d) 0 false).

(** *** Slices *)

(** One bound [i] of a slice [a:b] over an axis of length [n]: a negative
    bound counts from the end, and every bound is clipped to [0..n]. *)
Definition slice_bound (i n : Z) : Z :=
  if i <? 0 then Z.max (i + n) 0 else Z.min i n.

End Py.

Notation "x <- c1 ;; c2" := (Py.bind c1 (fun x => c2))
  (at level 61, c1 at next level, right associativity).

Import Py (Ok, Raise, result).

(** ** Landmarks *)

Module Landmark.
(** One point of a hand, as the landmark provider hands it over. *)
Record t : Type := mk { x : Py.float; y : Py.float; z : Py.float }.
End Landmark.

(** ** The gesture classifier *)

(** [FingerBanDetector.is_middle_finger_up] ([src/main.py], lines 25-63).
    [True] is the flagged verdict, [False] the normal one. *)
Definition is_middle_finger_up (landmarks : list Landmark.t) : result bool :=
  Py.try_except
    (thumb_tip <- Py.getitem landmarks 4 ;;
     thumb_ip <- Py.getitem landmarks 3 ;;
     index_tip <- Py.getitem landmarks 8 ;;
     index_pip <- Py.getitem landmarks 6 ;;
     middle_tip <- Py.getitem landmarks 12 ;;
     middle_pip <- Py.getitem landmarks 10 ;;
     ring_tip <- Py.getitem landmarks 16 ;;
     ring_pip <- Py.getitem landmarks 14 ;;
     pinky_tip <- Py.getitem landmarks 20 ;;
     pinky_pip <- Py.getitem landmarks 18 ;;
     let middle_extended := Py.lt (Landmark.y middle_tip) (Landmark.y middle_pip) in
     let index_folded := Py.gt (Landmark.y index_tip) (Landmark.y index_pip) in
     let ring_folded := Py.gt (Landmark.y ring_tip) (Landmark.y ring_pip) in
     let pinky_folded := Py.gt (Landmark.y pinky_tip) (Landmark.y pinky_pip) in
     let thumb_folded :=
       Py.lt (Py.abs (Py.sub (Landmark.x thumb_tip) (Landmark.x thumb_ip)))
             (Py.decimal 5 2) in
     Ok (middle_extended && index_folded && ring_folded && pinky_folded))
    (fun _ => Ok false).

(** [is_middle_finger_gesture_demo] ([src/setup_check.py], lines 86-112):
    the landmarks are pairs [(x, y)] and the function has no handler of
    its own. *)
Definition is_middle_finger_gesture_demo (landmarks : list (Py.float * Py.float))
  : result bool :=
  index_tip <- Py.getitem landmarks 8 ;;
  index_pip <- Py.getitem landmarks 6 ;;
  middle_tip <- Py.getitem landmarks 12 ;;
  middle_pip <- Py.getitem landmarks 10 ;;
  ring_tip <- Py.getitem landmarks 16 ;;
  ring_pip <- Py.getitem landmarks 14 ;;
  pinky_tip <- Py.getitem landmarks 20 ;;
  pinky_pip <- Py.getitem landmarks 18 ;;
  let middle_extended := Py.lt (snd middle_tip) (snd middle_pip) in
  let index_folded := Py.gt (snd index_tip) (snd index_pip) in
  let ring_folded := Py.gt (snd ring_tip) (snd ring_pip) in
  let pinky_folded := Py.gt (snd pinky_tip) (snd pinky_pip) in
  Ok (middle_extended && index_folded && ring_folded && pinky_folded).

(** ** Frames *)

(** A numpy array of three dimensions: its shape [(rows, columns,
    channels)] and the element stored at each index. Only the elements at
    indices inside the shape are part of the array. *)
Record ndarray : Type := mk_ndarray {
  shape : nat * nat * nat;
  item : Z -> Z -> Z -> Z
}.

(** [a.size] *)
Definition size (a : ndarray) : Z :=
  let '(h, w, c) := shape a in Z.of_nat h * Z.of_nat w * Z.of_nat c.

(** [a.shape[0]], [a.shape[1]] and [a.shape[2]] as ints. *)
Definition rows (a : ndarray) : Z := Z.of_nat (fst (fst (shape a))).
Definition cols (a : ndarray) : Z := Z.of_nat (snd (fst (shape a))).
Definition channels (a : ndarray) : Z := Z.of_nat (snd (shape a)).

(** The rows and columns that the slice [a[y0:y1, x0:x1]] selects:
    [(first row, end row, first column, end column)], ends excluded. *)
Definition slice_range (a : ndarray) (y0 y1 x0 x1 : Z) : Z * Z * Z * Z :=
  let '(h, w, _) := shape a in
  (Py.slice_bound y0 (Z.of_nat h), Py.slice_bound y1 (Z.of_nat h),
   Py.slice_bound x0 (Z.of_nat w), Py.slice_bound x1 (Z.of_nat w)).

(** [a[y0:y1, x0:x1]] read: the selected sub-array. *)
Definition getslice (a : ndarray) (y0 y1 x0 x1 : Z) : ndarray :=
  let '(_, _, c) := shape a in
  let '(r0, r1, c0, c1) := slice_range a y0 y1 x0 x1 in
  {| shape := (Z.to_nat (r1 - r0), Z.to_nat (c1 - c0), c);
     item := fun i j k => item a (r0 + i) (c0 + j) k |}.

(** Broadcasting of one axis of length [v] to length [t], and the index
    read along that axis. *)
Definition broadcasts (v t : nat) : bool := Nat.eqb v t || Nat.eqb v 1.

Definition broadcast_index (v : nat) (i : Z) : Z :=
  if Nat.eqb v 1 then 0 else i.

(** [a[y0:y1, x0:x1] = v]: the selected elements are overwritten by [v],
    broadcast to the selection; a [v] that does not broadcast raises
    [ValueError] and nothing is written. *)
Definition setslice (a : ndarray) (y0 y1 x0 x1 : Z) (v : ndarray)
  : result ndarray :=
  let '(_, _, c) := shape a in
  let '(r0, r1, c0, c1) := slice_range a y0 y1 x0 x1 in
  let '(vh, vw, vc) := shape v in
  if broadcasts vh (Z.to_nat (r1 - r0)) && broadcasts vw (Z.to_nat (c1 - c0))
     && broadcasts vc c
  then
    Ok {| shape := shape a;
          item := fun i j k =>
            if (r0 <=? i) && (i <? r1) && (c0 <=? j) && (j <? c1)
               && (0 <=? k) && (k <? Z.of_nat c)
            then item v (broadcast_index vh (i - r0))
                        (broadcast_index vw (j - c0))
                        (broadcast_index vc k)
            else item a i j k |}
  else Raise Py.ValueError.

(** The index [(i, j, k)] lies inside the shape of [a]. *)
Definition in_frame (a : ndarray) (i j k : Z) : Prop :=
  let '(h, w, c) := shape a in
  0 <= i < Z.of_nat h /\ 0 <= j < Z.of_nat w /\ 0 <= k < Z.of_nat c.

(** ** The region redactor *)

(** The keyword default of [blur_intensity]. *)
Definition blur_intensity_default : Z := 51.

(** Lines 71-75 of [blur_hand_region]: the pixel coordinates of the
    landmarks and the padded, clamped box
    [(x_min, x_max, y_min, y_max)] around them, for a frame of [h] rows
    and [w] columns. *)
Definition bounding_box (h w : Z) (landmarks : list Landmark.t)
  : result (Z * Z * Z * Z) :=
  x_coords <- Py.comprehension
                (fun landmark => v <- Py.mul_int (Landmark.x landmark) w ;; Py.int v)
                landmarks ;;
  y_coords <- Py.comprehension
                (fun landmark => v <- Py.mul_int (Landmark.y landmark) h ;; Py.int v)
                landmarks ;;
  x_lo <- Py.min x_coords ;;
  x_hi <- Py.max x_coords ;;
  y_lo <- Py.min y_coords ;;
  y_hi <- Py.max y_coords ;;
  let x_min := Z.max 0 (x_lo - 50) in
  let x_max := Z.min w (x_hi + 50) in
  let y_min := Z.max 0 (y_lo - 50) in
  let y_max := Z.min h (y_hi + 50) in
  Ok (x_min, x_max, y_min, y_max).

Section Redactor.

(** [cv2.GaussianBlur(src, (kx, ky), sigmaX)], an external call: it
    returns a new array or raises. *)
Variable GaussianBlur : ndarray -> Z * Z -> Z -> result ndarray.

(** The body of the [try] of [blur_hand_region] (lines 68-87). *)
Definition blur_hand_region_body (image : ndarray)
  (landmarks : list Landmark.t) (blur_intensity : Z) : result ndarray :=
  let '(h, w, _) := shape image in
  box <- bounding_box (Z.of_nat h) (Z.of_nat w) landmarks ;;
  let '(x_min, x_max, y_min, y_max) := box in
  let hand_region := getslice image y_min y_max x_min x_max in
  if 0 <? size hand_region then
    blurred_region <- GaussianBlur hand_region (blur_intensity, blur_intensity) 0 ;;
    setslice image y_min y_max x_min x_max blurred_region
  else Ok image.

(** [FingerBanDetector.blur_hand_region] (lines 65-90). The frame is
    changed in place; the result is the frame as it stands at the return. *)
Definition blur_hand_region (image : ndarray) (landmarks : list Landmark.t)
  (blur_intensity : Z) : result ndarray :=
  Py.try_except (blur_hand_region_body image landmarks blur_intensity)
                (fun _ => Ok image).

End Redactor.

(** ** The frame pipeline *)

(** The texts that the code draws on a frame. *)
Inductive text : Type :=
| warning_text                         (* "INAPPROPRIATE GESTURE DETECTED!" *)
| detections_text (detection_count : Z) (* f"Detections: {detection_count}" *)
| instructions_text.                   (* "Press 'q' to quit, 'r' to reset" *)

(** [ord('q')] and [ord('r')] *)
Definition ord_q : Z := 113.
Definition ord_r : Z := 114.

Inductive control : Type := Continue | Break.

(** What the outside world hands to one iteration of the capture loop:
    the pair returned by [cap.read()] and the int returned by
    [cv2.waitKey(1)]. *)
Record tick : Type := mk_tick {
  read : bool * ndarray;
  waitKey : Z
}.

(** The external calls of the pipeline. A call that draws on a frame
    changes it in place: it returns the frame as it leaves it, and
    whether it raised. [provider] is the state of the MediaPipe [Hands]
    object, which tracks hands from one frame to the next. The font,
    scale, colour and thickness arguments of [cv2.putText], the style
    arguments of [draw_landmarks] and the window name of [cv2.imshow]
    are left out. *)
Class Externals : Type := {
  provider : Type;
  GaussianBlur : ndarray -> Z * Z -> Z -> result ndarray;
  cvtColor : ndarray -> result ndarray;
  hands_process :
    provider -> ndarray -> provider * result (list (list Landmark.t));
  putText : ndarray -> text -> Z * Z -> ndarray * result unit;
  draw_landmarks : ndarray -> list Landmark.t -> ndarray * result unit;
  flip : ndarray -> Z -> result ndarray;
  imshow : ndarray -> result unit
}.

Section Pipeline.

Context {E : Externals}.

(** The loop over [results.multi_hand_landmarks] (lines 102-120), from
    the current frame and the current value of [middle_finger_detected].
    The result is the frame as the loop leaves it and either the final
    flag or the exception that ended the loop. *)
Fixpoint process_hands (frame : ndarray) (middle_finger_detected : bool)
  (multi_hand_landmarks : list (list Landmark.t)) : ndarray * result bool :=
  match multi_hand_landmarks with
  | [] => (frame, Ok middle_finger_detected)
  | hand_landmarks :: rest =>
      match is_middle_finger_up hand_landmarks with
      | Raise e => (frame, Raise e)
      | Ok true =>
          match blur_hand_region GaussianBlur frame hand_landmarks
                  blur_intensity_default with
          | Raise e => (frame, Raise e)
          | Ok frame1 =>
              match putText frame1 warning_text (50, 50) with
              | (frame2, Raise e) => (frame2, Raise e)
              | (frame2, Ok _) => process_hands frame2 true rest
              end
          end
      | Ok false =>
          match draw_landmarks frame hand_landmarks with
          | (frame1, Raise e) => (frame1, Raise e)
          | (frame1, Ok _) => process_hands frame1 middle_finger_detected rest
          end
      end
  end.

(** [FingerBanDetector.process_frame] (lines 92-125). An empty list
    stands for both [None] and [[]] of [results.multi_hand_landmarks]. *)
Definition process_frame (hands : provider) (frame : ndarray)
  : provider * result (ndarray * bool) :=
  match cvtColor frame with
  | Raise _ => (hands, Ok (frame, false))
  | Ok rgb_frame =>
      match hands_process hands rgb_frame with
      | (hands1, Raise _) => (hands1, Ok (frame, false))
      | (hands1, Ok multi_hand_landmarks) =>
          match process_hands frame false multi_hand_landmarks with
          | (frame1, Ok middle_finger_detected) =>
              (hands1, Ok (frame1, middle_finger_detected))
          | (frame1, Raise _) => (hands1, Ok (frame1, false))
          end
      end
  end.

(** The variables that live across iterations of the loop of [main]. *)
Record loop_state : Type := mk_loop_state {
  detector : provider;
  detection_count : Z
}.

(** One iteration of [while True] in [main] (lines 163-196). [Raise]
    is an exception that leaves the loop through the handlers of line
    198-201. *)
Definition main_iteration (s : loop_state) (t : tick)
  : result (control * loop_state) :=
  let '(ret, frame) := read t in
  if negb ret then Ok (Break, s)
  else
    frame <- flip frame 1 ;;
    let '(hands, r) := process_frame (detector s) frame in
    out <- r ;;
    let '(processed_frame, detected) := out in
    let detection_count :=
      if detected then detection_count s + 1 else detection_count s in
    let '(_, w, _) := shape processed_frame in
    let '(processed_frame, r) :=
      putText processed_frame (detections_text detection_count)
              (Z.of_nat w - 200, 30) in
    _ <- r ;;
    let '(h, _, _) := shape processed_frame in
    let '(processed_frame, r) :=
      putText processed_frame instructions_text (10, Z.of_nat h - 20) in
    _ <- r ;;
    _ <- imshow processed_frame ;;
    let key := Z.land (waitKey t) 255 in
    if key =? ord_q then Ok (Break, mk_loop_state hands detection_count)
    else if key =? ord_r then Ok (Continue, mk_loop_state hands 0)
    else Ok (Continue, mk_loop_state hands detection_count).

(** The loop of [main] over the iterations that [ticks] feeds, from the
    state [s]: it stops at the first [break] or escaping exception. *)
Fixpoint main_loop (s : loop_state) (ticks : list tick)
  : result (control * loop_state) :=
  match ticks with
  | [] => Ok (Continue, s)
  | t :: ticks' =>
      match main_iteration s t with
      | Ok (Continue, s') => main_loop s' ticks'
      | r => r
      end
  end.

(** [main] up to the end of the loop: the counter starts at 0 (line 159). *)
Definition main (hands : provider) (ticks : list tick)
  : result (control * loop_state) :=
  main_loop (mk_loop_state hands 0) ticks.

(** *** What one iteration shows of a frame *)

(** The flag that [process_frame] reports for the frame of the
    iteration ([detected], line 172); [false] when no frame is read or
    the flip raises. *)
Definition reported (s : loop_state) (t : tick) : bool :=
  match read t with
  | (true, frame) =>
      match flip frame 1 with
      | Ok frame1 =>
          match snd (process_frame (detector s) frame1) with
          | Ok (_, detected) => detected
          | Raise _ => false
          end
      | Raise _ => false
      end
  | (false, _) => false
  end.

(** The reset signal: a frame was read and the key of the iteration is
    ['r']. *)
Definition reset_signal (t : tick) : bool :=
  fst (read t) && (Z.land (waitKey t) 255 =? ord_r).

(** The events [(reported, reset)] of the iterations that the loop runs
    over [ticks] from the state [s]. *)
Fixpoint run_events (s : loop_state) (ticks : list tick)
  : list (bool * bool) :=
  match ticks with
  | [] => []
  | t :: ticks' =>
      (reported s t, reset_signal t)
      :: match main_iteration s t with
         | Ok (Continue, s') => run_events s' ticks'
         | _ => []
         end
  end.

(** The flip, the text overlays and the display do not raise. *)
Definition display_succeeds : Prop :=
  (forall (frame : ndarray) (code : Z), exists frame', flip frame code = Ok frame')
  /\ (forall (frame : ndarray) (txt : text) (org : Z * Z),
        snd (putText frame txt org) = Ok tt)
  /\ (forall frame : ndarray, imshow frame = Ok tt).

End Pipeline.

(** The counter as the specification words it ([DetectionSession]), to
    compare the loop with: one more for a frame with one or more flagged
    hands, the same for a frame with none, and 0 after a reset signal
    whatever the value before. An event is the pair of the [anyFlagged]
    signal of a frame and of the reset signal that follows it. *)
Definition session_step (count : Z) (event : bool * bool) : Z :=
  let '(any_flagged, reset) := event in
  if reset then 0 else if any_flagged then count + 1 else count.

Definition session_count (count : Z) (events : list (bool * bool)) : Z :=
  fold_left session_step events count.

(** ** Vocabulary of the specification *)

(** The point of index [i] of a landmark set. *)
Definition origin : Landmark.t :=
  Landmark.mk (S754_zero false) (S754_zero false) (S754_zero false).

Definition y_of (landmarks : list Landmark.t) (i : nat) : Py.float :=
  Landmark.y (nth i landmarks origin).

(** A finger is extended when its tip is strictly above its PIP joint
    ([tip.y < pip.y]) and folded when its tip is strictly below it
    ([tip.y > pip.y]); [tip] and [pip] are landmark indices. *)
Definition extended (landmarks : list Landmark.t) (tip pip : nat) : Prop :=
  Py.lt (y_of landmarks tip) (y_of landmarks pip) = true.

Definition folded (landmarks : list Landmark.t) (tip pip : nat) : Prop :=
  Py.gt (y_of landmarks tip) (y_of landmarks pip) = true.

(** The y-coordinates of a tip and of its PIP joint are exactly equal: the
    same float, or two floats that [==] holds of (as [0.0] and [-0.0]). *)
Definition tie (landmarks : list Landmark.t) (tip pip : nat) : Prop :=
  y_of landmarks tip = y_of landmarks pip
  \/ Py.eq (y_of landmarks tip) (y_of landmarks pip) = true.

(** The flagged gesture of the specification: middle finger extended,
    index, ring and pinky folded. *)
Definition flagged_gesture (landmarks : list Landmark.t) : Prop :=
  extended landmarks 12 10 /\ folded landmarks 8 6
  /\ folded landmarks 16 14 /\ folded landmarks 20 18.

(** The compared y-coordinates are finite binary64 floats. *)
Definition finite_ys (landmarks : list Landmark.t) : Prop :=
  forall i : nat, In i [6; 8; 10; 12; 14; 16; 18; 20]%nat ->
    Py.binary64 (y_of landmarks i) /\ Py.isfinite (y_of landmarks i) = true.

(** Two landmark sets agree everywhere but on the thumb (indices 1-4). *)
Definition same_but_thumb (l1 l2 : list Landmark.t) : Prop :=
  forall i : nat, (i = 0 \/ 5 <= i)%nat -> nth_error l1 i = nth_error l2 i.

(** The hand is classified as flagged. *)
Definition flagged_hand (landmarks : list Landmark.t) : bool :=
  match is_middle_finger_up landmarks with
  | Ok true => true
  | _ => false
  end.

(** The pixel [(i, j)] (row, column) lies in the half-open box
    [x_min <= j < x_max], [y_min <= i < y_max]. *)
Definition in_box (box : Z * Z * Z * Z) (i j : Z) : Prop :=
  let '(x_min, x_max, y_min, y_max) := box in
  y_min <= i < y_max /\ x_min <= j < x_max.

(** The box has no pixel. *)
Definition zero_area (box : Z * Z * Z * Z) : Prop :=
  let '(x_min, x_max, y_min, y_max) := box in
  x_max <= x_min \/ y_max <= y_min.

(** The y-coordinate of the point of index [i] of a hand of the demo. *)
Definition demo_y_of (landmarks : list (Py.float * Py.float)) (i : nat)
  : Py.float :=
  snd (nth i landmarks (S754_zero false, S754_zero false)).

(** The literal scenarios of the specification, as constraints on the
    y-coordinates [y i] of the compared landmarks [i]. *)
Definition scenario_A (y : nat -> Py.float) : Prop :=
  y 12%nat = Py.decimal 15 2 /\ y 10%nat = Py.decimal 25 2
  /\ y 8%nat = Py.decimal 58 2 /\ y 6%nat = Py.decimal 50 2
  /\ y 16%nat = Py.decimal 58 2 /\ y 14%nat = Py.decimal 50 2
  /\ y 20%nat = Py.decimal 60 2 /\ y 18%nat = Py.decimal 53 2.

Definition scenario_B (y : nat -> Py.float) : Prop :=
  y 12%nat = Py.decimal 35 2 /\ y 10%nat = Py.decimal 45 2
  /\ y 8%nat = Py.decimal 35 2 /\ y 6%nat = Py.decimal 45 2.

(** ** Sample data *)

(** The two hands of [demo_mode] ([src/setup_check.py], lines 59-84). *)
Definition pt (x y : Z) : Py.float * Py.float :=
  (Py.decimal x 2, Py.decimal y 2).

Definition middle_finger_landmarks : list (Py.float * Py.float) :=
  [ pt 50 80;
    pt 45 75; pt 42 72; pt 39 69; pt 36 66;
    pt 48 65; pt 47 55; pt 46 50; pt 47 58;
    pt 52 65; pt 52 45; pt 52 25; pt 52 15;
    pt 56 65; pt 57 55; pt 58 50; pt 59 58;
    pt 60 67; pt 62 58; pt 63 53; pt 64 60 ].

Definition normal_hand_landmarks : list (Py.float * Py.float) :=
  [ pt 50 80;
    pt 45 75; pt 42 72; pt 39 69; pt 36 66;
    pt 48 65; pt 47 55; pt 46 45; pt 45 35;
    pt 52 65; pt 52 55; pt 52 45; pt 52 35;
    pt 56 65; pt 57 55; pt 58 45; pt 59 35;
    pt 60 67; pt 62 58; pt 63 48; pt 64 38 ].

(** The same hands as landmark sets of the detector. *)
Definition landmark_of (p : Py.float * Py.float) : Landmark.t :=
  Landmark.mk (fst p) (snd p) (S754_zero false).

Definition flagged_sample : list Landmark.t :=
  map landmark_of middle_finger_landmarks.

Definition normal_sample : list Landmark.t :=
  map landmark_of normal_hand_landmarks.

(** A flagged hand with one more point than the 21 of the convention. *)
Definition long_sample : list Landmark.t := flagged_sample ++ [origin].

(** The flagged hand with the index tip level with the index PIP joint
    (landmark 8 moved to [y = 0.55], the y of landmark 6). *)
Definition index_tie_sample : list Landmark.t :=
  firstn 8 flagged_sample ++ [landmark_of (pt 47 55)] ++ skipn 9 flagged_sample.

(** A hand of 21 points with the given y-coordinates (in hundredths) at
    the eight compared landmarks, and every other coordinate at 0.5. *)
Definition points_of_ys (index_tip index_pip middle_tip middle_pip
                         ring_tip ring_pip pinky_tip pinky_pip : Z)
  : list (Py.float * Py.float) :=
  map (pt 50)
    [ 50; 50; 50; 50; 50; 50; index_pip; 50; index_tip;
      50; middle_pip; 50; middle_tip; 50; ring_pip; 50; ring_tip;
      50; pinky_pip; 50; pinky_tip ].

(** The literal scenarios A and B of the specification, as hands of the
    demo and as landmark sets of the detector; scenario B leaves ring and
    pinky open, here they are extended as well. *)
Definition scenario_A_points : list (Py.float * Py.float) :=
  points_of_ys 58 50 15 25 58 50 60 53.

Definition scenario_B_points : list (Py.float * Py.float) :=
  points_of_ys 35 45 35 45 35 45 38 48.

Definition scenario_A_sample : list Landmark.t :=
  map landmark_of scenario_A_points.

Definition scenario_B_sample : list Landmark.t :=
  map landmark_of scenario_B_points.

(** The flagged hand moved to the left of the frame: every [x] is
    lowered by 1, so the hand spans [x = -0.64 .. -0.36]. *)
Definition offscreen_sample : list Landmark.t :=
  map (fun p => landmark_of (Py.decimal (fst p - 100) 2, Py.decimal (snd p) 2))
    [ (50, 80);
      (45, 75); (42, 72); (39, 69); (36, 66);
      (48, 65); (47, 55); (46, 50); (47, 58);
      (52, 65); (52, 45); (52, 25); (52, 15);
      (56, 65); (57, 55); (58, 50); (59, 58);
      (60, 67); (62, 58); (63, 53); (64, 60) ].

(** A frame of [h] rows, [w] columns and three channels with a
    checkerboard of 0 and 255. *)
Definition checkerboard (h w : nat) : ndarray :=
  {| shape := (h, w, 3%nat);
     item := fun i j _ => if Z.even (i + j) then 255 else 0 |}.

(** A stand-in for [cv2.GaussianBlur] to run the redactor on concrete
    frames: a horizontal mean of three neighbours with the border
    replicated. Like OpenCV it rejects a kernel size that is not odd and
    positive. *)
Definition mean_blur (src : ndarray) (ksize : Z * Z) (sigmaX : Z)
  : result ndarray :=
  let '(kx, ky) := ksize in
  if (0 <? kx) && Z.odd kx && (0 <? ky) && Z.odd ky then
    let '(_, w, _) := shape src in
    let clamp j := Z.max 0 (Z.min j (Z.of_nat w - 1)) in
    Ok {| shape := shape src;
          item := fun i j k =>
            (item src i (clamp (j - 1)) k + item src i j k
             + item src i (clamp (j + 1)) k) / 3 |}
  else Raise Py.cv2_error.

(** Stand-ins for the other external calls. The hand provider plays a
    script: its state is the list of the answers still to give, one per
    frame. The drawing calls succeed and draw nothing; the conversion and
    the flip return the frame. *)
Definition scripted_hands (script : list (list (list Landmark.t)))
  (frame : ndarray)
  : list (list (list Landmark.t)) * result (list (list Landmark.t)) :=
  match script with
  | [] => ([], Ok [])
  | answer :: script' => (script', Ok answer)
  end.

Definition no_text (frame : ndarray) (_ : text) (_ : Z * Z)
  : ndarray * result unit := (frame, Ok tt).

Definition no_skeleton (frame : ndarray) (_ : list Landmark.t)
  : ndarray * result unit := (frame, Ok tt).

Definition same_frame (frame : ndarray) : result ndarray := Ok frame.

Definition no_flip (frame : ndarray) (_ : Z) : result ndarray := Ok frame.

Definition no_window (_ : ndarray) : result unit := Ok tt.

Definition stand_ins : Externals :=
  {| provider := list (list (list Landmark.t));
     GaussianBlur := mean_blur;
     cvtColor := same_frame;
     hands_process := scripted_hands;
     putText := no_text;
     draw_landmarks := no_skeleton;
     flip := no_flip;
     imshow := no_window |}.

(** Four iterations on a small frame: two flagged hands and no key, no
    hand and no key, one flagged hand and the key ['r'], one flagged hand
    and no key ([waitKey] returns -1 when no key is pressed). *)
Definition sample_script : list (list (list Landmark.t)) :=
  [ [flagged_sample; flagged_sample]; []; [flagged_sample]; [flagged_sample] ].

Definition sample_ticks : list tick :=
  [ mk_tick (true, checkerboard 4 4) (-1);
    mk_tick (true, checkerboard 4 4) (-1);
    mk_tick (true, checkerboard 4 4) ord_r;
    mk_tick (true, checkerboard 4 4) (-1) ].

(** ** Further vocabulary *)

(** The element expression [int(coordinate * n)] of the comprehensions
    of lines 71-72: the pixel of a normalized coordinate along an axis of
    [n] pixels. *)
Definition pixel (coordinate : Py.float) (n : Z) : result Z :=
  v <- Py.mul_int coordinate n ;; Py.int v.

(** The indices of the landmarks that the classifier compares. *)
Definition compared_landmarks : list nat := [6; 8; 10; 12; 14; 16; 18; 20]%nat.

(** A landmark mirrored in the horizontal axis ([y] to [-y]) and a hand
    turned upside down that way. *)
Definition mirror_y (p : Landmark.t) : Landmark.t :=
  Landmark.mk (Landmark.x p) (SFopp (Landmark.y p)) (Landmark.z p).

Definition upside_down (landmarks : list Landmark.t) : list Landmark.t :=
  map mirror_y landmarks.

(** The flagged hand moved far to the right of the frame: every [x] is
    raised by 5. *)
Definition far_right_sample : list Landmark.t :=
  map (fun p : Landmark.t =>
         Landmark.mk (SFadd Py.prec Py.emax (Landmark.x p) (Py.decimal 5 0))
                     (Landmark.y p) (Landmark.z p))
      flagged_sample.

(** The flagged hand with a NaN as the y of the ring tip. *)
Definition nan_sample : list Landmark.t :=
  firstn 16 flagged_sample
  ++ [Landmark.mk (Py.decimal 59 2) S754_nan (S754_zero false)]
  ++ skipn 17 flagged_sample.

(** Stand-ins whose blur and text overlay always raise; the other calls
    are those of [stand_ins]. *)
Definition raising_blur (_ : ndarray) (_ : Z * Z) (_ : Z) : result ndarray :=
  Raise Py.cv2_error.

Definition raising_text (frame : ndarray) (_ : text) (_ : Z * Z)
  : ndarray * result unit := (frame, Raise Py.cv2_error).

Definition harsh_stand_ins : Externals :=
  {| provider := list (list (list Landmark.t));
     GaussianBlur := raising_blur;
     cvtColor := same_frame;
     hands_process := scripted_hands;
     putText := raising_text;
     draw_landmarks := no_skeleton;
     flip := no_flip;
     imshow := no_window |}.

(** ** The program around the loop *)

(** How a call of [main] ends: it returns, it leaves the program through
    [sys.exit(code)], or an exception escapes from it. *)
Inductive termination : Type :=
| returns
| sys_exit (code : Z)
| escapes (e : Py.exn).

(** How an [import] statement ends; [import_raises] is an exception that
    is not an [ImportError]. *)
Inductive import_outcome : Type :=
| imported
| ImportError
| import_raises (e : Py.exn).

(** The calls on the camera and on the windows, in the order they are
    made. *)
Inductive effect : Type :=
| VideoCapture_called
| release_called
| destroyAllWindows_called.

(** The external calls of [main] outside the loop: the imports of lines
    133-135, the construction of the MediaPipe objects in [__init__]
    (lines 11-19), [cv2.VideoCapture(0)] followed by [cap.isOpened()],
    [cap.release()] and [cv2.destroyAllWindows()]. *)
Class Shell (E : Externals) : Type := {
  import_dependencies : import_outcome;
  Hands : result provider;
  VideoCapture : result bool;
  release : result unit;
  destroyAllWindows : result unit
}.

(** What happens while the loop runs: an iteration, fed by a tick, or a
    [KeyboardInterrupt], taken between two iterations. *)
Inductive occurrence : Type :=
| iteration (t : tick)
| KeyboardInterrupt.

(** How the [try] statement of lines 161-196 is left. *)
Inductive loop_end : Type :=
| loop_broke
| loop_raised (e : Py.exn)
| loop_interrupted.

Section Program.

Context {E : Externals} {Sh : Shell E}.

(** [FingerBanDetector.__init__] (lines 8-23): the handler raises again
    what it caught. *)
Definition FingerBanDetector_init : result provider :=
  Py.try_except Hands (fun e => Raise e).

(** The body of the [try] statement of [main] over the occurrences that
    it meets; [None] when it is still looping after them. *)
Fixpoint capture_loop (s : loop_state) (occurrences : list occurrence)
  : option loop_end :=
  match occurrences with
  | [] => None
  | KeyboardInterrupt :: _ => Some loop_interrupted
  | iteration t :: occurrences' =>
      match main_iteration s t with
      | Ok (Continue, s') => capture_loop s' occurrences'
      | Ok (Break, _) => Some loop_broke
      | Raise e => Some (loop_raised e)
      end
  end.

(** [main] of [src/main.py] (lines 127-206): the calls it makes on the
    camera and the windows, and how it ends; [None] when it is still in
    the loop after the given occurrences. Both handlers of the loop only
    print, and the [finally] clause runs however the loop is left. *)
Definition main_program (occurrences : list occurrence)
  : list effect * option termination :=
  match import_dependencies with
  | ImportError => ([], Some (sys_exit 1))
  | import_raises e => ([], Some (escapes e))
  | imported =>
      match FingerBanDetector_init with
      | Raise _ => ([], Some (sys_exit 1))
      | Ok detector =>
          match VideoCapture with
          | Raise e => ([VideoCapture_called], Some (escapes e))
          | Ok false => ([VideoCapture_called], Some (sys_exit 1))
          | Ok true =>
              match capture_loop (mk_loop_state detector 0) occurrences with
              | None => ([VideoCapture_called], None)
              | Some _ =>
                  match release with
                  | Raise e =>
                      ([VideoCapture_called; release_called], Some (escapes e))
                  | Ok _ =>
                      match destroyAllWindows with
                      | Raise e =>
                          ([VideoCapture_called; release_called;
                            destroyAllWindows_called], Some (escapes e))
                      | Ok _ =>
                          ([VideoCapture_called; release_called;
                            destroyAllWindows_called], Some returns)
                      end
                  end
              end
          end
      end
  end.

(** The startup of [main] succeeds: the imports, the construction of
    the detector and the opening of the camera. *)
Definition started (detector : provider) : Prop :=
  import_dependencies = imported /\ Hands = Ok detector
  /\ VideoCapture = Ok true.

End Program.

(** ** The setup check *)

Module SetupCheck.

(** What [main] of [src/setup_check.py] does besides printing. *)
Inductive action : Type :=
| asked_for_choice
| ran_demo_mode
| started_application.

(** [try: import m ... except ImportError: missing_deps.append(name)],
    the statement that [check_dependencies] runs for each module (lines
    14-33), from the list of missing names so far. *)
Definition try_import (outcome : import_outcome) (name : String.string)
  (missing_deps : list String.string) : result (list String.string) :=
  match outcome with
  | imported => Ok missing_deps
  | ImportError => Ok (missing_deps ++ [name])
  | import_raises e => Raise e
  end.

(** [check_dependencies] (lines 10-35), for the outcomes of the imports
    of [cv2], [mediapipe] and [numpy]. *)
Definition check_dependencies (cv2 mediapipe numpy : import_outcome)
  : result (list String.string) :=
  missing_deps <- try_import cv2 "opencv-python"%string [] ;;
  missing_deps <- try_import mediapipe "mediapipe"%string missing_deps ;;
  missing_deps <- try_import numpy "numpy"%string missing_deps ;;
  Ok missing_deps.

(** [demo_mode] (lines 45-127): the two verdicts that it prints. *)
Definition demo_mode : result (bool * bool) :=
  result1 <- is_middle_finger_gesture_demo middle_finger_landmarks ;;
  result2 <- is_middle_finger_gesture_demo normal_hand_landmarks ;;
  Ok (result1, result2).

(** [choice in ['y', 'yes']] *)
Definition is_yes (choice : String.string) : bool :=
  String.eqb choice "y"%string || String.eqb choice "yes"%string.

(** [main] (lines 129-157). [input] is what [input()] returns or
    raises, [lower] and [strip] are the string methods, [import_main] is
    the outcome of [from main import main] and [application] what the
    call of that [main] does. The result is what was done and how the
    call ends ([None]: the application is still running). *)
Definition main (cv2 mediapipe numpy : import_outcome)
  (input : result String.string) (lower strip : String.string -> String.string)
  (import_main : import_outcome)
  (application : list effect * option termination)
  : list action * list effect * option termination :=
  match check_dependencies cv2 mediapipe numpy with
  | Raise e => ([], [], Some (escapes e))
  | Ok [] =>
      match import_main with
      | imported =>
          let '(effects, outcome) := application in
          ([started_application], effects,
           match outcome with
           | Some (escapes _) => Some returns
           | other => other
           end)
      | _ => ([], [], Some returns)
      end
  | Ok (_ :: _) =>
      match input with
      | Raise e => ([asked_for_choice], [], Some (escapes e))
      | Ok line =>
          if is_yes (strip (lower line)) then
            match demo_mode with
            | Ok _ => ([asked_for_choice; ran_demo_mode], [], Some returns)
            | Raise e =>
                ([asked_for_choice; ran_demo_mode], [], Some (escapes e))
            end
          else ([asked_for_choice], [], Some returns)
      end
  end.

End SetupCheck.

(** Stand-ins for the calls around the loop: everything succeeds. *)
Definition ready_shell : Shell stand_ins :=
  {| import_dependencies := imported;
     Hands := @Ok (@provider stand_ins) sample_script;
     VideoCapture := Ok true;
     release := Ok tt;
     destroyAllWindows := Ok tt |}.

(** The same with a camera that cannot be opened. *)
Definition no_camera_shell : Shell stand_ins :=
  {| import_dependencies := imported;
     Hands := @Ok (@provider stand_ins) sample_script;
     VideoCapture := Ok false;
     release := Ok tt;
     destroyAllWindows := Ok tt |}.

(** The drawing calls leave the shape of the frame as it is, as calls
    that draw in place do. *)
Definition drawing_keeps_shape {E : Externals} : Prop :=
  (forall (frame : ndarray) (txt : text) (org : Z * Z),
      shape (fst (putText frame txt org)) = shape frame)
  /\ (forall (frame : ndarray) (hand : list Landmark.t),
        shape (fst (draw_landmarks frame hand)) = shape frame).

(** * Properties *)

(** ** The sample data *)

(** Every coordinate of the sample hands is a finite binary64 float. *)
Example samples_are_binary64 :
  forallb (fun landmark =>
             valid_binary Py.prec Py.emax (Landmark.x landmark)
             && Py.isfinite (Landmark.x landmark)
             && valid_binary Py.prec Py.emax (Landmark.y landmark)
             && Py.isfinite (Landmark.y landmark))
          (flagged_sample ++ normal_sample ++ long_sample ++ index_tie_sample
           ++ scenario_A_sample ++ scenario_B_sample ++ offscreen_sample)
  = true.
Proof. vm_compute. reflexivity. Qed.

(** The literals [0.05], [0.15] and [0.5] as binary64 floats. *)
Example decimal_literals :
  Py.decimal 5 2 = S754_finite false 7205759403792794 (-57)
  /\ Py.decimal 15 2 = S754_finite false 5404319552844595 (-55)
  /\ Py.decimal 50 2 = S754_finite false 4503599627370496 (-53).
Proof. repeat split; vm_compute; reflexivity. Qed.

(** [int(0.29 * 100)] is 28 and [int(0.3 * 10)] is 3, as in Python: the
    product is rounded before it is truncated. *)
Example int_of_product :
  (v <- Py.mul_int (Py.decimal 29 2) 100 ;; Py.int v) = Ok 28
  /\ (v <- Py.mul_int (Py.decimal 3 1) 10 ;; Py.int v) = Ok 3.
Proof. split; vm_compute; reflexivity. Qed.

(** The classifier on the two hands of the demo. *)
Example sample_verdicts :
  is_middle_finger_up flagged_sample = Ok true
  /\ is_middle_finger_up normal_sample = Ok false.
Proof. split; vm_compute; reflexivity. Qed.

(** Slices with a negative end count from the end of the axis, as
    [range(200)[0:-22]] has 178 elements and [range(100)[0:-150]] none. *)
Example negative_slice_bound :
  Py.slice_bound (-22) 200 = 178 /\ Py.slice_bound (-150) 100 = 0
  /\ Py.slice_bound 250 100 = 100.
Proof. repeat split; reflexivity. Qed.

(** ** Python sequences and floats *)

Section Sequences.

Context {A : Type}.

Lemma getitem_inside (l : list A) (i : nat) (d : A) :
  (i < length l)%nat -> Py.getitem l i = Ok (nth i l d).
Proof.
  intros Hi. unfold Py.getitem.
  destruct (nth_error l i) as [v|] eqn:E.
  - now rewrite (nth_error_nth l i d E).
  - apply nth_error_None in E. lia.
Qed.

Lemma getitem_outside (l : list A) (i : nat) :
  (length l <= i)%nat -> Py.getitem l i = Raise Py.IndexError.
Proof.
  intros Hi. unfold Py.getitem.
  now rewrite (proj2 (nth_error_None l i) Hi).
Qed.

End Sequences.

(** [SFcompare] read in the other direction gives the opposite answer. *)
Lemma SFcompare_swap (a b : Py.float) :
  SFcompare b a = option_map CompOpp (SFcompare a b).
Proof.
  destruct a as [sa|sa| |sa ma ea], b as [sb|sb| |sb mb eb]; simpl;
    try reflexivity;
    try (destruct sa; reflexivity);
    try (destruct sb; reflexivity);
    try (destruct sa, sb; reflexivity).
  assert (Hm : Pos.compare_cont Eq mb ma = CompOpp (Pos.compare_cont Eq ma mb))
    by (symmetry; apply (Pos.compare_cont_antisym ma mb Eq)).
  destruct sa, sb; simpl; try reflexivity;
    rewrite (Z.compare_antisym ea eb), Hm;
    destruct (ea ?= eb); reflexivity.
Qed.

(** A float is never strictly below or above itself. *)
Lemma lt_irrefl (a : Py.float) : Py.lt a a = false.
Proof.
  unfold Py.lt, SFltb.
  destruct a as [s|s| |s m e]; simpl; try reflexivity;
    try (destruct s; reflexivity).
  destruct s; rewrite Z.compare_refl, Pos.compare_cont_refl; reflexivity.
Qed.

(** Floats that [==] holds of are not strictly ordered, either way. *)
Lemma eq_not_lt (a b : Py.float) :
  Py.eq a b = true -> Py.lt a b = false /\ Py.lt b a = false.
Proof.
  unfold Py.eq, Py.lt, SFeqb, SFltb. rewrite (SFcompare_swap a b).
  destruct (SFcompare a b) as [[| |]|]; simpl; intros H;
    try discriminate; split; reflexivity.
Qed.

(** The number of binary digits of a mantissa brackets it between two
    powers of 2. *)
Lemma digits2_pos_bounds (m : positive) :
  2 ^ (Zpos (digits2_pos m) - 1) <= Zpos m < 2 ^ Zpos (digits2_pos m).
Proof.
  induction m as [p IH|p IH|]; simpl digits2_pos.
  - rewrite Pos2Z.inj_succ, Z.pow_succ_r by lia.
    replace (Z.succ (Zpos (digits2_pos p)) - 1)
      with (Z.succ (Zpos (digits2_pos p) - 1)) by lia.
    rewrite Z.pow_succ_r by lia. lia.
  - rewrite Pos2Z.inj_succ, Z.pow_succ_r by lia.
    replace (Z.succ (Zpos (digits2_pos p)) - 1)
      with (Z.succ (Zpos (digits2_pos p) - 1)) by lia.
    rewrite Z.pow_succ_r by lia. lia.
  - simpl. lia.
Qed.

(** The mantissa of a binary64 float has at most 53 bits, and exactly 53
    above the smallest exponent. *)
Lemma bounded_mantissa (m : positive) (e : Z) :
  bounded Py.prec Py.emax m e = true ->
  Zpos m < 2 ^ 53
  /\ emin Py.prec Py.emax <= e
  /\ (emin Py.prec Py.emax < e -> 2 ^ 52 <= Zpos m).
Proof.
  unfold bounded, canonical_mantissa, fexp. intros H.
  apply andb_true_iff in H as [H _]. apply Z.eqb_eq in H.
  pose proof (digits2_pos_bounds m) as [Hlo Hhi].
  unfold Py.prec in *.
  assert (Hd : Zpos (digits2_pos m) <= 53) by lia.
  split; [|split].
  - eapply Z.lt_le_trans; [exact Hhi|]. apply Z.pow_le_mono_r; lia.
  - lia.
  - intros He. assert (Hd53 : Zpos (digits2_pos m) = 53) by lia.
    now rewrite Hd53 in Hlo.
Qed.

Lemma larger_exponent_larger_value (m1 m2 : positive) (e1 e2 : Z) :
  bounded Py.prec Py.emax m1 e1 = true ->
  bounded Py.prec Py.emax m2 e2 = true ->
  e1 < e2 -> Zpos m1 < Zpos m2 * 2 ^ (e2 - e1).
Proof.
  intros H1 H2 He.
  destruct (bounded_mantissa _ _ H1) as (Hm1 & Hmin1 & _).
  destruct (bounded_mantissa _ _ H2) as (_ & _ & Hm2).
  specialize (Hm2 ltac:(lia)).
  assert (Hp : 2 ^ 1 <= 2 ^ (e2 - e1)) by (apply Z.pow_le_mono_r; lia).
  change (2 ^ 1) with 2 in Hp. change (2 ^ 53) with (2 ^ 52 * 2) in Hm1. nia.
Qed.

(** On finite binary64 floats [<] is the order of the exact values. *)
Lemma lt_exact (a b : Py.float) :
  Py.binary64 a -> Py.binary64 b ->
  Py.isfinite a = true -> Py.isfinite b = true ->
  (Py.lt a b = true <-> Py.exact_lt a b).
Proof.
  unfold Py.lt, SFltb, Py.exact_lt, Py.common_unit, Py.binary64.
  destruct a as [sa|sa| |sa ma ea], b as [sb|sb| |sb mb eb];
    try discriminate;
    cbn [SFcompare Py.scaled Py.exponent_or valid_binary];
    intros Ha Hb _ _.
  - split; [discriminate|lia].
  - rewrite Z.min_id, Z.sub_diag, Z.pow_0_r, Z.mul_1_r.
    destruct sb; cbn [Py.signed]; split; (discriminate || lia || reflexivity).
  - rewrite Z.min_id, Z.sub_diag, Z.pow_0_r, Z.mul_1_r.
    destruct sa; cbn [Py.signed]; split; (discriminate || lia || reflexivity).
  - pose proof (larger_exponent_larger_value ma mb ea eb Ha Hb) as Hup.
    pose proof (larger_exponent_larger_value mb ma eb ea Hb Ha) as Hdown.
    assert (Ha0 : 0 < 2 ^ (ea - Z.min ea eb)) by (apply Z.pow_pos_nonneg; lia).
    assert (Hb0 : 0 < 2 ^ (eb - Z.min ea eb)) by (apply Z.pow_pos_nonneg; lia).
    change (Pos.compare_cont Eq ma mb) with (Pos.compare ma mb).
    destruct sa, sb; cbn [Py.signed];
      try (split; [intros _; nia | reflexivity]);
      try (split; [discriminate | nia]).
    + destruct (Z.compare_spec ea eb) as [->|Hlt|Hgt].
      * rewrite Z.min_id, Z.sub_diag, Z.pow_0_r, !Z.mul_1_r.
        destruct (Pos.compare_spec ma mb) as [->|Hm|Hm]; cbn [CompOpp]; split;
          (discriminate || reflexivity || lia).
      * rewrite Z.min_l, Z.sub_diag, Z.pow_0_r, Z.mul_1_r by lia.
        specialize (Hup Hlt). split; [discriminate|lia].
      * rewrite Z.min_r, Z.sub_diag, Z.pow_0_r, Z.mul_1_r by lia.
        specialize (Hdown ltac:(lia)). split; [lia|reflexivity].
    + destruct (Z.compare_spec ea eb) as [->|Hlt|Hgt].
      * rewrite Z.min_id, Z.sub_diag, Z.pow_0_r, !Z.mul_1_r.
        destruct (Pos.compare_spec ma mb) as [->|Hm|Hm]; split;
          (discriminate || reflexivity || lia).
      * rewrite Z.min_l, Z.sub_diag, Z.pow_0_r, Z.mul_1_r by lia.
        specialize (Hup Hlt). split; [lia|reflexivity].
      * rewrite Z.min_r, Z.sub_diag, Z.pow_0_r, Z.mul_1_r by lia.
        specialize (Hdown ltac:(lia)). split; [discriminate|lia].
Qed.

(** A comparison with NaN is false. *)
Lemma nan_not_lt (a : Py.float) :
  Py.lt a S754_nan = false /\ Py.lt S754_nan a = false.
Proof. destruct a as [s|s| |s m e]; split; reflexivity. Qed.

(** ** The classifier *)

(** With 21 points or more, the classifier reads the eight compared
    landmarks and answers with the conjunction of the four tests. *)
Lemma is_middle_finger_up_full (landmarks : list Landmark.t) :
  (21 <= length landmarks)%nat ->
  is_middle_finger_up landmarks =
    Ok (Py.lt (y_of landmarks 12) (y_of landmarks 10)
        && Py.gt (y_of landmarks 8) (y_of landmarks 6)
        && Py.gt (y_of landmarks 16) (y_of landmarks 14)
        && Py.gt (y_of landmarks 20) (y_of landmarks 18)).
Proof.
  intros Hlen. unfold is_middle_finger_up, y_of.
  rewrite !(getitem_inside landmarks _ origin) by lia.
  reflexivity.
Qed.

(** With fewer than 21 points the read of landmark 20 at the latest
    raises [IndexError], which the handler turns into [False]. *)
Lemma is_middle_finger_up_short (landmarks : list Landmark.t) :
  (length landmarks < 21)%nat -> is_middle_finger_up landmarks = Ok false.
Proof.
  intros Hlen. unfold is_middle_finger_up.
  rewrite (getitem_outside landmarks 20) by lia.
  repeat (match goal with
          | |- context [Py.getitem landmarks ?i] =>
              destruct (Py.getitem landmarks i); simpl; try reflexivity
          end).
Qed.

(** The classifier never raises. *)
Lemma is_middle_finger_up_total (landmarks : list Landmark.t) :
  exists b : bool, is_middle_finger_up landmarks = Ok b.
Proof.
  destruct (Nat.lt_ge_cases (length landmarks) 21) as [H|H].
  - exists false. now apply is_middle_finger_up_short.
  - eexists. now apply is_middle_finger_up_full.
Qed.

Lemma flagged_gesture_bool (landmarks : list Landmark.t) :
  flagged_gesture landmarks <->
  Py.lt (y_of landmarks 12) (y_of landmarks 10)
  && Py.gt (y_of landmarks 8) (y_of landmarks 6)
  && Py.gt (y_of landmarks 16) (y_of landmarks 14)
  && Py.gt (y_of landmarks 20) (y_of landmarks 18) = true.
Proof.
  unfold flagged_gesture, extended, folded.
  rewrite !andb_true_iff. tauto.
Qed.

(** On finite coordinates the flagged gesture is a statement on exact
    values: the middle tip lies above its PIP joint and the index, ring
    and pinky tips lie below theirs. *)
Lemma flagged_gesture_exact (landmarks : list Landmark.t) :
  finite_ys landmarks ->
  (flagged_gesture landmarks <->
   Py.exact_lt (y_of landmarks 12) (y_of landmarks 10)
   /\ Py.exact_lt (y_of landmarks 6) (y_of landmarks 8)
   /\ Py.exact_lt (y_of landmarks 14) (y_of landmarks 16)
   /\ Py.exact_lt (y_of landmarks 18) (y_of landmarks 20)).
Proof.
  intros Hfin. unfold flagged_gesture, extended, folded, Py.gt.
  assert (Hlt : forall i j : nat,
            In i [6; 8; 10; 12; 14; 16; 18; 20]%nat ->
            In j [6; 8; 10; 12; 14; 16; 18; 20]%nat ->
            (Py.lt (y_of landmarks i) (y_of landmarks j) = true
             <-> Py.exact_lt (y_of landmarks i) (y_of landmarks j))).
  { intros i j Hi Hj.
    destruct (Hfin i Hi) as [Hvi Hfi]. destruct (Hfin j Hj) as [Hvj Hfj].
    now apply lt_exact. }
  rewrite (Hlt 12%nat 10%nat), (Hlt 6%nat 8%nat), (Hlt 14%nat 16%nat),
    (Hlt 18%nat 20%nat) by (simpl; tauto).
  reflexivity.
Qed.

Lemma same_but_thumb_y (l1 l2 : list Landmark.t) (i : nat) :
  same_but_thumb l1 l2 -> (5 <= i)%nat -> y_of l1 i = y_of l2 i.
Proof.
  intros H Hi. unfold y_of.
  assert (E : nth_error l1 i = nth_error l2 i) by (apply H; now right).
  rewrite <- !nth_default_eq. unfold nth_default. now rewrite E.
Qed.

(** C1. For every landmark set of exactly 21 points the classifier
    returns [True] (flagged) if and only if the middle finger is extended
    (landmark 12 strictly above landmark 10) and index, ring and pinky are
    folded (landmarks 8, 16, 20 strictly below landmarks 6, 14, 18), and
    returns [False] otherwise; a change of the thumb landmarks (indices
    1-4) does not change the verdict. On finite coordinates the strict
    comparisons are those of the exact values. *)
Theorem classify_flagged_iff (landmarks : list Landmark.t) :
  length landmarks = 21%nat ->
  (is_middle_finger_up landmarks = Ok true <-> flagged_gesture landmarks)
  /\ (is_middle_finger_up landmarks = Ok false <-> ~ flagged_gesture landmarks)
  /\ (forall landmarks' : list Landmark.t,
        length landmarks' = 21%nat ->
        same_but_thumb landmarks landmarks' ->
        is_middle_finger_up landmarks' = is_middle_finger_up landmarks)
  /\ (finite_ys landmarks ->
      (is_middle_finger_up landmarks = Ok true <->
       Py.exact_lt (y_of landmarks 12) (y_of landmarks 10)
       /\ Py.exact_lt (y_of landmarks 6) (y_of landmarks 8)
       /\ Py.exact_lt (y_of landmarks 14) (y_of landmarks 16)
       /\ Py.exact_lt (y_of landmarks 18) (y_of landmarks 20))).
Proof.
  intros Hlen.
  assert (Hiff : is_middle_finger_up landmarks = Ok true
                 <-> flagged_gesture landmarks).
  { rewrite (is_middle_finger_up_full landmarks) by lia.
    rewrite flagged_gesture_bool.
    split; [now intros [= ->] | now intros ->]. }
  split; [exact Hiff|].
  split; [|split].
  - rewrite (is_middle_finger_up_full landmarks) by lia.
    rewrite flagged_gesture_bool. split.
    + intros [= ->]. discriminate.
    + intros H. f_equal. now apply not_true_is_false.
  - intros l' Hlen' Hsame.
    rewrite (is_middle_finger_up_full landmarks) by lia.
    rewrite (is_middle_finger_up_full l') by lia.
    now rewrite !(same_but_thumb_y landmarks l') by (assumption || lia).
  - intros Hfin. rewrite Hiff. now apply flagged_gesture_exact.
Qed.

Lemma classify_flagged_iff_witness :
  length flagged_sample = 21%nat
  /\ (is_middle_finger_up flagged_sample = Ok true <-> flagged_gesture flagged_sample).
Proof.
  split; [reflexivity|].
  exact (proj1 (classify_flagged_iff flagged_sample eq_refl)).
Defined.

(** C2, as the code has it. The classifier never raises; a set of fewer
    than 21 points is classified as normal; a set of more than 21 points
    gets the verdict of its first 21 points. *)
Theorem classify_other_lengths (landmarks : list Landmark.t) :
  (exists b : bool, is_middle_finger_up landmarks = Ok b)
  /\ ((length landmarks < 21)%nat -> is_middle_finger_up landmarks = Ok false)
  /\ ((21 < length landmarks)%nat ->
      is_middle_finger_up landmarks = is_middle_finger_up (firstn 21 landmarks)).
Proof.
  split; [apply is_middle_finger_up_total|].
  split; [apply is_middle_finger_up_short|].
  intros Hlen.
  rewrite (is_middle_finger_up_full landmarks) by lia.
  rewrite (is_middle_finger_up_full (firstn 21 landmarks))
    by (rewrite length_firstn; lia).
  unfold y_of.
  assert (Hnth : forall i : nat, (i < 21)%nat ->
            nth i (firstn 21 landmarks) origin = nth i landmarks origin).
  { intros i Hi.
    rewrite <- (firstn_skipn 21 landmarks) at 2.
    rewrite app_nth1 by (rewrite length_firstn; lia). reflexivity. }
  rewrite !Hnth by lia. reflexivity.
Qed.

Lemma classify_other_lengths_witness :
  is_middle_finger_up (firstn 20 flagged_sample) = Ok false
  /\ is_middle_finger_up long_sample = is_middle_finger_up (firstn 21 long_sample).
Proof.
  split.
  - apply (proj1 (proj2 (classify_other_lengths (firstn 20 flagged_sample)))).
    vm_compute. lia.
  - apply (proj2 (proj2 (classify_other_lengths long_sample))).
    vm_compute. lia.
Defined.

(** C2, counterexample. A flagged hand followed by a 22nd point does not
    have 21 points and is still classified as flagged. *)
Lemma classify_long_input_flagged :
  length long_sample = 22%nat
  /\ length long_sample <> 21%nat
  /\ is_middle_finger_up long_sample = Ok true
  /\ is_middle_finger_up long_sample <> Ok false.
Proof.
  repeat split; try reflexivity; vm_compute; discriminate.
Qed.

(** A tie between a tip and its PIP joint makes both strict tests fail. *)
Lemma tie_not_strict (landmarks : list Landmark.t) (tip pip : nat) :
  tie landmarks tip pip ->
  Py.lt (y_of landmarks tip) (y_of landmarks pip) = false
  /\ Py.gt (y_of landmarks tip) (y_of landmarks pip) = false.
Proof.
  unfold tie, Py.gt. intros [E|E].
  - rewrite E. split; apply lt_irrefl.
  - now apply eq_not_lt.
Qed.

(** C3, as the code has it. A tip level with its PIP joint is not a
    folded finger: for every 21-point set with the middle finger
    extended, ring and pinky folded and the index tip exactly level with
    the index PIP joint, the classifier returns [False] (normal). *)
Theorem index_tie_is_normal (landmarks : list Landmark.t) :
  length landmarks = 21%nat ->
  extended landmarks 12 10 ->
  folded landmarks 16 14 ->
  folded landmarks 20 18 ->
  tie landmarks 8 6 ->
  is_middle_finger_up landmarks = Ok false.
Proof.
  intros Hlen _ _ _ Htie.
  rewrite is_middle_finger_up_full by lia.
  destruct (tie_not_strict landmarks 8 6 Htie) as [_ ->].
  now rewrite andb_false_r.
Qed.

Lemma index_tie_is_normal_witness :
  is_middle_finger_up index_tie_sample = Ok false.
Proof.
  apply (index_tie_is_normal index_tie_sample).
  - reflexivity.
  - vm_compute. reflexivity.
  - vm_compute. reflexivity.
  - vm_compute. reflexivity.
  - left. vm_compute. reflexivity.
Defined.

(** C3, counterexample. The sample hand has 21 points, its middle finger
    extended, ring and pinky folded and the index tip at [y = 0.55], the y
    of the index PIP joint; the classifier does not return [True]. *)
Lemma index_tie_not_flagged :
  length index_tie_sample = 21%nat
  /\ extended index_tie_sample 12 10
  /\ folded index_tie_sample 16 14
  /\ folded index_tie_sample 20 18
  /\ y_of index_tie_sample 8 = y_of index_tie_sample 6
  /\ is_middle_finger_up index_tie_sample = Ok false
  /\ is_middle_finger_up index_tie_sample <> Ok true.
Proof.
  repeat split; try (vm_compute; reflexivity). vm_compute. discriminate.
Qed.

(** C4. A tie favours the normal verdict: for every 21-point set in which
    one of the four compared pairs (12/10, 8/6, 16/14, 20/18) has exactly
    equal y-coordinates, the classifier returns [False] (normal). *)
Theorem tie_is_normal (landmarks : list Landmark.t) :
  length landmarks = 21%nat ->
  tie landmarks 12 10 \/ tie landmarks 8 6
  \/ tie landmarks 16 14 \/ tie landmarks 20 18 ->
  is_middle_finger_up landmarks = Ok false.
Proof.
  intros Hlen Htie.
  rewrite is_middle_finger_up_full by lia. f_equal.
  destruct Htie as [H|[H|[H|H]]];
    destruct (tie_not_strict _ _ _ H) as [Hlt Hgt];
    rewrite ?Hlt, ?Hgt, ?andb_false_r; reflexivity.
Qed.

Lemma tie_is_normal_witness :
  is_middle_finger_up index_tie_sample = Ok false.
Proof.
  apply (tie_is_normal index_tie_sample).
  - reflexivity.
  - right. left. left. vm_compute. reflexivity.
Defined.

(** With 21 points or more the demo classifier answers with the same
    conjunction of the four tests. *)
Lemma is_middle_finger_gesture_demo_full (landmarks : list (Py.float * Py.float)) :
  (21 <= length landmarks)%nat ->
  is_middle_finger_gesture_demo landmarks =
    Ok (Py.lt (demo_y_of landmarks 12) (demo_y_of landmarks 10)
        && Py.gt (demo_y_of landmarks 8) (demo_y_of landmarks 6)
        && Py.gt (demo_y_of landmarks 16) (demo_y_of landmarks 14)
        && Py.gt (demo_y_of landmarks 20) (demo_y_of landmarks 18)).
Proof.
  intros Hlen. unfold is_middle_finger_gesture_demo, demo_y_of.
  rewrite !(getitem_inside landmarks _ (S754_zero false, S754_zero false))
    by lia.
  reflexivity.
Qed.

(** On 21 points or more the demo classifier and the classifier of the
    detector agree. *)
Lemma demo_agrees_with_detector (landmarks : list (Py.float * Py.float)) :
  (21 <= length landmarks)%nat ->
  is_middle_finger_gesture_demo landmarks
  = is_middle_finger_up (map landmark_of landmarks).
Proof.
  intros Hlen.
  rewrite is_middle_finger_gesture_demo_full by assumption.
  rewrite is_middle_finger_up_full by (rewrite length_map; assumption).
  unfold y_of, demo_y_of.
  change origin with (landmark_of (S754_zero false, S754_zero false)).
  rewrite !map_nth. reflexivity.
Qed.

(** C5. Every 21-point set with the y-coordinates of scenario A is
    classified as flagged and every 21-point set with those of scenario B
    as normal, by the classifier of the detector and by the classifier of
    the demo; on the two hands of the demo the demo classifier returns
    the flagged and the normal verdict. *)
Theorem literal_scenarios (landmarks : list Landmark.t)
  (points : list (Py.float * Py.float)) :
  length landmarks = 21%nat ->
  length points = 21%nat ->
  (scenario_A (y_of landmarks) -> is_middle_finger_up landmarks = Ok true)
  /\ (scenario_B (y_of landmarks) -> is_middle_finger_up landmarks = Ok false)
  /\ (scenario_A (demo_y_of points) ->
      is_middle_finger_gesture_demo points = Ok true)
  /\ (scenario_B (demo_y_of points) ->
      is_middle_finger_gesture_demo points = Ok false)
  /\ is_middle_finger_gesture_demo middle_finger_landmarks = Ok true
  /\ is_middle_finger_gesture_demo normal_hand_landmarks = Ok false.
Proof.
  intros Hlen Hlen'.
  rewrite is_middle_finger_up_full by lia.
  rewrite is_middle_finger_gesture_demo_full by lia.
  repeat split; try (vm_compute; reflexivity).
  - intros (-> & -> & -> & -> & -> & -> & -> & ->). vm_compute. reflexivity.
  - intros (-> & -> & -> & ->). vm_compute. reflexivity.
  - intros (-> & -> & -> & -> & -> & -> & -> & ->). vm_compute. reflexivity.
  - intros (-> & -> & -> & ->). vm_compute. reflexivity.
Qed.

Lemma literal_scenarios_witness :
  (scenario_A (y_of scenario_A_sample)
   /\ is_middle_finger_up scenario_A_sample = Ok true)
  /\ (scenario_B (demo_y_of scenario_B_points)
      /\ is_middle_finger_gesture_demo scenario_B_points = Ok false).
Proof.
  assert (HA : scenario_A (y_of scenario_A_sample))
    by (vm_compute; repeat split).
  assert (HB : scenario_B (demo_y_of scenario_B_points))
    by (vm_compute; repeat split).
  pose proof (literal_scenarios scenario_A_sample scenario_B_points
                eq_refl eq_refl) as (H1 & _ & _ & H4 & _).
  split; split; auto.
Defined.

(** ** Slices of a frame *)

Lemma slice_bound_range (i n : Z) : 0 <= n -> 0 <= Py.slice_bound i n <= n.
Proof.
  intros Hn. unfold Py.slice_bound. destruct (i <? 0) eqn:E; lia.
Qed.

(** A bound between 0 and the length of the axis is taken as it is. *)
Lemma slice_bound_inside (i n : Z) : 0 <= i <= n -> Py.slice_bound i n = i.
Proof.
  intros Hi. unfold Py.slice_bound.
  destruct (i <? 0) eqn:E; [apply Z.ltb_lt in E|]; lia.
Qed.

Lemma slice_range_bounds (a : ndarray) (y0 y1 x0 x1 r0 r1 c0 c1 : Z) :
  slice_range a y0 y1 x0 x1 = (r0, r1, c0, c1) ->
  0 <= r0 <= rows a /\ 0 <= r1 <= rows a
  /\ 0 <= c0 <= cols a /\ 0 <= c1 <= cols a.
Proof.
  unfold slice_range, rows, cols.
  destruct (shape a) as [[h w] c]; simpl. intros [= <- <- <- <-].
  repeat split; apply slice_bound_range; lia.
Qed.

Lemma setslice_shape (a v out : ndarray) (y0 y1 x0 x1 : Z) :
  setslice a y0 y1 x0 x1 v = Ok out -> shape out = shape a.
Proof.
  unfold setslice.
  destruct (shape a) as [[h w] c].
  destruct (slice_range a y0 y1 x0 x1) as [[[r0 r1] c0] c1].
  destruct (shape v) as [[vh vw] vc].
  destruct (_ && _ && _); [|discriminate].
  now intros [= <-].
Qed.

(** A slice assignment writes inside the selected rows and columns
    only. *)
Lemma setslice_outside (a v out : ndarray) (y0 y1 x0 x1 r0 r1 c0 c1 : Z) :
  setslice a y0 y1 x0 x1 v = Ok out ->
  slice_range a y0 y1 x0 x1 = (r0, r1, c0, c1) ->
  forall i j k : Z,
    ~ (r0 <= i < r1 /\ c0 <= j < c1) -> item out i j k = item a i j k.
Proof.
  unfold setslice. intros Hset Hrange i j k Hout.
  destruct (shape a) as [[h w] c].
  rewrite Hrange in Hset.
  destruct (shape v) as [[vh vw] vc].
  destruct (_ && _ && _); [|discriminate].
  injection Hset as <-. simpl.
  destruct ((r0 <=? i) && (i <? r1) && (c0 <=? j) && (j <? c1)) eqn:E.
  - rewrite !andb_true_iff in E. exfalso. apply Hout. lia.
  - reflexivity.
Qed.

(** ** The redactor *)

Lemma bounding_box_clamped (h w : Z) (landmarks : list Landmark.t)
  (x_min x_max y_min y_max : Z) :
  bounding_box h w landmarks = Ok (x_min, x_max, y_min, y_max) ->
  exists x_lo x_hi y_lo y_hi : Z,
    x_min = Z.max 0 (x_lo - 50) /\ x_max = Z.min w (x_hi + 50)
    /\ y_min = Z.max 0 (y_lo - 50) /\ y_max = Z.min h (y_hi + 50).
Proof.
  unfold bounding_box.
  destruct (Py.comprehension _ landmarks) as [x_coords|]; [simpl|discriminate].
  destruct (Py.comprehension _ landmarks) as [y_coords|]; [simpl|discriminate].
  destruct (Py.min x_coords) as [x_lo|]; [simpl|discriminate].
  destruct (Py.max x_coords) as [x_hi|]; [simpl|discriminate].
  destruct (Py.min y_coords) as [y_lo|]; [simpl|discriminate].
  destruct (Py.max y_coords) as [y_hi|]; [simpl|discriminate].
  intros [= <- <- <- <-]. now exists x_lo, x_hi, y_lo, y_hi.
Qed.

Section RedactorFacts.

Variable GaussianBlur : ndarray -> Z * Z -> Z -> result ndarray.

(** The redactor returns normally, whatever the blur does. *)
Lemma blur_hand_region_total (image : ndarray) (landmarks : list Landmark.t)
  (blur_intensity : Z) :
  exists out : ndarray,
    blur_hand_region GaussianBlur image landmarks blur_intensity = Ok out.
Proof.
  unfold blur_hand_region.
  destruct (blur_hand_region_body _ _ _ _) as [out|e]; simpl; eauto.
Qed.

(** An exception in the body leaves the frame as it was. *)
Lemma blur_hand_region_caught (image : ndarray) (landmarks : list Landmark.t)
  (blur_intensity : Z) (e : Py.exn) :
  blur_hand_region_body GaussianBlur image landmarks blur_intensity = Raise e ->
  blur_hand_region GaussianBlur image landmarks blur_intensity = Ok image.
Proof. unfold blur_hand_region. now intros ->. Qed.

(** The three outcomes of the redactor: the frame as it was, because
    the body raised or the region was empty, or the frame after the
    slice assignment of the blurred region. *)
Lemma blur_hand_region_cases (image : ndarray) (landmarks : list Landmark.t)
  (blur_intensity : Z) (out : ndarray) :
  blur_hand_region GaussianBlur image landmarks blur_intensity = Ok out ->
  out = image
  \/ exists (x_min x_max y_min y_max : Z) (blurred_region : ndarray),
       bounding_box (rows image) (cols image) landmarks
         = Ok (x_min, x_max, y_min, y_max)
       /\ 0 < size (getslice image y_min y_max x_min x_max)
       /\ GaussianBlur (getslice image y_min y_max x_min x_max)
            (blur_intensity, blur_intensity) 0 = Ok blurred_region
       /\ setslice image y_min y_max x_min x_max blurred_region = Ok out.
Proof.
  unfold blur_hand_region, blur_hand_region_body, rows, cols.
  destruct (shape image) as [[h w] c]; simpl.
  destruct (bounding_box _ _ landmarks) as [[[[x_min x_max] y_min] y_max]|];
    simpl; [|intros [= <-]; now left].
  destruct (0 <? size _) eqn:Hsize; simpl; [|intros [= <-]; now left].
  destruct (GaussianBlur _ _ _) as [blurred|] eqn:Hblur; simpl;
    [|intros [= <-]; now left].
  destruct (setslice _ _ _ _ _ _) as [out'|] eqn:Hset; simpl;
    [|intros [= <-]; now left].
  intros [= <-]. right.
  exists x_min, x_max, y_min, y_max, blurred.
  apply Z.ltb_lt in Hsize. auto.
Qed.

(** The redactor never changes the shape of the frame. *)
Lemma blur_hand_region_shape (image : ndarray) (landmarks : list Landmark.t)
  (blur_intensity : Z) (out : ndarray) :
  blur_hand_region GaussianBlur image landmarks blur_intensity = Ok out ->
  shape out = shape image.
Proof.
  intros H. apply blur_hand_region_cases in H.
  destruct H as [->|(x_min & x_max & y_min & y_max & b & _ & _ & _ & Hset)].
  - reflexivity.
  - now apply setslice_shape in Hset.
Qed.

(** Height, width and channel count are kept. *)
Lemma blur_hand_region_dimensions (image : ndarray)
  (landmarks : list Landmark.t) (blur_intensity : Z) (out : ndarray) :
  blur_hand_region GaussianBlur image landmarks blur_intensity = Ok out ->
  rows out = rows image /\ cols out = cols image
  /\ channels out = channels image.
Proof.
  intros H. apply blur_hand_region_shape in H.
  unfold rows, cols, channels. now rewrite H.
Qed.

(** When the clamped ends [x_max] and [y_max] of the box are not
    negative, the redactor changes no pixel outside the box. *)
Lemma blur_hand_region_outside_box (image : ndarray)
  (landmarks : list Landmark.t) (blur_intensity : Z) (out : ndarray)
  (x_min x_max y_min y_max : Z) :
  blur_hand_region GaussianBlur image landmarks blur_intensity = Ok out ->
  bounding_box (rows image) (cols image) landmarks
    = Ok (x_min, x_max, y_min, y_max) ->
  0 <= x_max -> 0 <= y_max ->
  forall i j k : Z,
    ~ in_box (x_min, x_max, y_min, y_max) i j ->
    item out i j k = item image i j k.
Proof.
  intros H Hbox Hx Hy i j k Hout. apply blur_hand_region_cases in H.
  destruct H as [->|(x_min' & x_max' & y_min' & y_max' & b & Hbox' & _ & _ & Hset)];
    [reflexivity|].
  rewrite Hbox in Hbox'. injection Hbox' as <- <- <- <-.
  destruct (bounding_box_clamped _ _ _ _ _ _ _ Hbox)
    as (x_lo & x_hi & y_lo & y_hi & Hxmin & Hxmax & Hymin & Hymax).
  destruct (slice_range image y_min y_max x_min x_max)
    as [[[r0 r1] c0] c1] eqn:Hrange.
  apply (setslice_outside _ _ _ _ _ _ _ _ _ _ _ Hset Hrange).
  intros [Hi Hj]. apply Hout. simpl.
  revert Hrange. unfold slice_range. unfold rows, cols in *.
  destruct (shape image) as [[h w] c]; simpl in *.
  intros [= <- <- <- <-].
  rewrite (slice_bound_inside y_max) in Hi by lia.
  rewrite (slice_bound_inside x_max) in Hj by lia.
  unfold Py.slice_bound in Hi, Hj.
  destruct (y_min <? 0) eqn:E1; [apply Z.ltb_lt in E1; lia|].
  destruct (x_min <? 0) eqn:E2; [apply Z.ltb_lt in E2; lia|].
  lia.
Qed.

(** When the clamped ends of the box are not negative and the box has
    zero area, the redactor skips the blur and returns the frame as it
    was. *)
Lemma blur_hand_region_skips_empty_box (image : ndarray)
  (landmarks : list Landmark.t) (blur_intensity : Z)
  (x_min x_max y_min y_max : Z) :
  bounding_box (rows image) (cols image) landmarks
    = Ok (x_min, x_max, y_min, y_max) ->
  0 <= x_max -> 0 <= y_max ->
  zero_area (x_min, x_max, y_min, y_max) ->
  blur_hand_region GaussianBlur image landmarks blur_intensity = Ok image.
Proof.
  intros Hbox Hx Hy Hzero.
  destruct (bounding_box_clamped _ _ _ _ _ _ _ Hbox)
    as (x_lo & x_hi & y_lo & y_hi & Hxmin & Hxmax & Hymin & Hymax).
  unfold blur_hand_region, blur_hand_region_body.
  unfold rows, cols in *.
  destruct (shape image) as [[h w] c] eqn:Hshape; simpl in *.
  rewrite Hbox; simpl.
  assert (Hsize : size (getslice image y_min y_max x_min x_max) = 0).
  { unfold size, getslice, slice_range. rewrite Hshape. simpl.
    rewrite (slice_bound_inside y_max) by lia.
    rewrite (slice_bound_inside x_max) by lia.
    unfold Py.slice_bound.
    destruct (y_min <? 0) eqn:E1; [apply Z.ltb_lt in E1; lia|].
    destruct (x_min <? 0) eqn:E2; [apply Z.ltb_lt in E2; lia|].
    destruct Hzero as [Hz|Hz].
    - replace (Z.to_nat (x_max - Z.min x_min (Z.of_nat w))) with 0%nat by lia.
      lia.
    - replace (Z.to_nat (y_max - Z.min y_min (Z.of_nat h))) with 0%nat by lia.
      lia. }
  rewrite Hsize. reflexivity.
Qed.

(** A frame of zero extent is returned as it was. *)
Lemma blur_hand_region_empty_frame (image : ndarray)
  (landmarks : list Landmark.t) (blur_intensity : Z) :
  size image = 0 ->
  blur_hand_region GaussianBlur image landmarks blur_intensity = Ok image.
Proof.
  intros Hsize.
  unfold blur_hand_region, blur_hand_region_body.
  destruct (shape image) as [[h w] c] eqn:Hshape; simpl.
  destruct (bounding_box _ _ landmarks) as [[[[x_min x_max] y_min] y_max]|];
    simpl; [|reflexivity].
  assert (Hregion : size (getslice image y_min y_max x_min x_max) = 0).
  { destruct (slice_range image y_min y_max x_min x_max)
      as [[[r0 r1] c0] c1] eqn:Hrange.
    pose proof (slice_range_bounds _ _ _ _ _ _ _ _ _ Hrange) as Hb.
    unfold size, getslice in *. unfold rows, cols in Hb.
    rewrite Hrange, Hshape in *. simpl in *.
    apply Z.eq_mul_0 in Hsize as [Hsize|Hc];
      [apply Z.eq_mul_0 in Hsize as [Hh|Hw]|].
    - replace (Z.to_nat (r1 - r0)) with 0%nat by lia. lia.
    - replace (Z.to_nat (c1 - c0)) with 0%nat by lia. lia.
    - rewrite Hc. lia. }
  rewrite Hregion. reflexivity.
Qed.

End RedactorFacts.

(** The hand left of the frame is a flagged hand: the pipeline hands it
    to the redactor. *)
Lemma offscreen_sample_is_flagged :
  length offscreen_sample = 21%nat
  /\ is_middle_finger_up offscreen_sample = Ok true.
Proof. split; vm_compute; reflexivity. Qed.

(** C6, as the code has it. Whenever the redactor computes the box of a
    landmark set in a frame of [h] rows and [w] columns, the box
    satisfies [x_min >= 0], [y_min >= 0], [x_max <= w] and [y_max <= h]:
    [x_max] and [y_max] are the excluded ends of the slice, so every
    pixel of the half-open box lies in [[0,w) x [0,h)]. *)
Theorem bounding_box_within_frame (h w : Z) (landmarks : list Landmark.t)
  (x_min x_max y_min y_max : Z) :
  bounding_box h w landmarks = Ok (x_min, x_max, y_min, y_max) ->
  0 <= x_min /\ 0 <= y_min /\ x_max <= w /\ y_max <= h
  /\ (forall i j : Z,
        in_box (x_min, x_max, y_min, y_max) i j -> 0 <= i < h /\ 0 <= j < w).
Proof.
  intros Hbox.
  destruct (bounding_box_clamped _ _ _ _ _ _ _ Hbox)
    as (x_lo & x_hi & y_lo & y_hi & -> & -> & -> & ->).
  repeat (split; [lia|]).
  intros i j [Hi Hj]. lia.
Qed.

Lemma bounding_box_within_frame_witness :
  0 <= 0 /\ 0 <= 0 /\ 100 <= 100 /\ 100 <= 100
  /\ (forall i j : Z, in_box (0, 100, 0, 100) i j -> 0 <= i < 100 /\ 0 <= j < 100).
Proof.
  apply (bounding_box_within_frame 100 100 flagged_sample 0 100 0 100).
  vm_compute. reflexivity.
Defined.

(** C6, counterexample. In a frame of 100 by 100 pixels the box of the
    sample hand has [x_max = 100 = w] and [y_max = 100 = h]: neither is
    strictly below the frame size. *)
Lemma bounding_box_reaches_frame_size :
  exists x_min x_max y_min y_max : Z,
    bounding_box 100 100 flagged_sample = Ok (x_min, x_max, y_min, y_max)
    /\ x_max = 100 /\ y_max = 100
    /\ ~ (x_max < 100) /\ ~ (y_max < 100).
Proof.
  exists 0, 100, 0, 100.
  split; [vm_compute; reflexivity|]. lia.
Qed.

(** C7, where the code departs from it. For the hand left of a frame of
    100 rows and 200 columns the clamped box is [(0, -22, 0, 100)]: it
    holds no pixel, so every pixel is outside it. The negative end [-22]
    of the column slice counts from the right edge, the columns 0 to 177
    are blurred, and the pixel (0, 0) of the frame, which is outside the
    box, changes from 255 to 170. The shape is kept. *)
Theorem offscreen_hand_changes_pixel_outside_box :
  bounding_box 100 200 offscreen_sample = Ok (0, -22, 0, 100)
  /\ (forall i j : Z, ~ in_box (0, -22, 0, 100) i j)
  /\ exists out : ndarray,
      blur_hand_region mean_blur (checkerboard 100 200) offscreen_sample
        blur_intensity_default = Ok out
      /\ shape out = shape (checkerboard 100 200)
      /\ in_frame (checkerboard 100 200) 0 0 0
      /\ item (checkerboard 100 200) 0 0 0 = 255
      /\ item out 0 0 0 = 170.
Proof.
  split; [vm_compute; reflexivity|].
  split; [intros i j [_ H]; lia|].
  destruct (blur_hand_region mean_blur (checkerboard 100 200) offscreen_sample
              blur_intensity_default) as [out|e] eqn:E;
    vm_compute in E; [|discriminate].
  exists out. injection E as <-.
  repeat split; try reflexivity; simpl; lia.
Qed.

(** C8, where the code departs from it. For the same hand the clamped
    bounds are inverted ([x_min = 0 > x_max = -22]) and the box has zero
    area, yet the sliced region has 100 rows and 178 columns, the
    redactor hands it to the blur whatever the blur is, and with the
    stand-in blur the pixel (0, 1) of the returned frame has changed from
    0 to 170. *)
Theorem offscreen_hand_is_blurred :
  bounding_box 100 200 offscreen_sample = Ok (0, -22, 0, 100)
  /\ zero_area (0, -22, 0, 100)
  /\ shape (getslice (checkerboard 100 200) 0 100 0 (-22))
     = (100, 178, 3)%nat
  /\ (forall (GaussianBlur : ndarray -> Z * Z -> Z -> result ndarray)
            (blur_intensity : Z),
        blur_hand_region GaussianBlur (checkerboard 100 200) offscreen_sample
          blur_intensity
        = Py.try_except
            (blurred_region <-
               GaussianBlur (getslice (checkerboard 100 200) 0 100 0 (-22))
                 (blur_intensity, blur_intensity) 0 ;;
             setslice (checkerboard 100 200) 0 100 0 (-22) blurred_region)
            (fun _ => Ok (checkerboard 100 200)))
  /\ exists out : ndarray,
      blur_hand_region mean_blur (checkerboard 100 200) offscreen_sample
        blur_intensity_default = Ok out
      /\ item (checkerboard 100 200) 0 1 0 = 0
      /\ item out 0 1 0 = 170.
Proof.
  assert (Hbox : bounding_box 100 200 offscreen_sample = Ok (0, -22, 0, 100))
    by (vm_compute; reflexivity).
  split; [exact Hbox|].
  split; [left; lia|].
  split; [reflexivity|].
  split.
  - intros G k. unfold blur_hand_region, blur_hand_region_body.
    change (shape (checkerboard 100 200)) with (100%nat, 200%nat, 3%nat).
    cbv iota beta.
    change (Z.of_nat 100) with 100. change (Z.of_nat 200) with 200.
    rewrite Hbox. reflexivity.
  - destruct (blur_hand_region mean_blur (checkerboard 100 200)
                offscreen_sample blur_intensity_default) as [out|e] eqn:E;
      vm_compute in E; [|discriminate].
    exists out. injection E as <-.
    repeat split; reflexivity.
Qed.

(** C10. For every frame, landmark set, blur and kernel size the redactor
    returns normally: an exception of its body is caught and the frame is
    returned as it was, in particular when the blur raises on the region
    that it is given. *)
Theorem blur_hand_region_never_raises
  (GaussianBlur : ndarray -> Z * Z -> Z -> result ndarray)
  (image : ndarray) (landmarks : list Landmark.t) (blur_intensity : Z) :
  (exists out : ndarray,
      blur_hand_region GaussianBlur image landmarks blur_intensity = Ok out)
  /\ (forall e : Py.exn,
        blur_hand_region_body GaussianBlur image landmarks blur_intensity
          = Raise e ->
        blur_hand_region GaussianBlur image landmarks blur_intensity = Ok image)
  /\ (forall (x_min x_max y_min y_max : Z) (e : Py.exn),
        bounding_box (rows image) (cols image) landmarks
          = Ok (x_min, x_max, y_min, y_max) ->
        GaussianBlur (getslice image y_min y_max x_min x_max)
          (blur_intensity, blur_intensity) 0 = Raise e ->
        blur_hand_region GaussianBlur image landmarks blur_intensity = Ok image).
Proof.
  split; [apply blur_hand_region_total|].
  split; [apply blur_hand_region_caught|].
  intros x_min x_max y_min y_max e Hbox Hblur.
  unfold blur_hand_region, blur_hand_region_body.
  unfold rows, cols in Hbox.
  destruct (shape image) as [[h w] c]; simpl in *.
  rewrite Hbox; simpl.
  destruct (0 <? size _); [|reflexivity].
  rewrite Hblur. reflexivity.
Qed.

Lemma blur_hand_region_never_raises_witness :
  blur_hand_region mean_blur (checkerboard 100 100) flagged_sample 50
  = Ok (checkerboard 100 100).
Proof.
  apply (proj2 (proj2 (blur_hand_region_never_raises mean_blur
                         (checkerboard 100 100) flagged_sample 50))
           0 100 0 100 Py.cv2_error).
  - vm_compute. reflexivity.
  - reflexivity.
Defined.

(** ** The pipeline and the detection counter *)

(** Without a reset signal the counter of the specification grows by the
    number of flagged frames. *)
Lemma session_count_no_reset (events : list (bool * bool)) :
  forall count : Z,
    (forall event, In event events -> snd event = false) ->
    session_count count events
    = count + Z.of_nat (length (filter fst events)).
Proof.
  unfold session_count.
  induction events as [|[any_flagged reset] events IH]; intros count Hno; simpl.
  - lia.
  - assert (Hr : reset = false) by (apply (Hno (any_flagged, reset)); now left).
    subst reset. rewrite IH by (intros ev Hev; apply Hno; now right).
    destruct any_flagged; simpl; lia.
Qed.

(** After a reset signal the counter of the specification does not depend
    on what came before. *)
Lemma session_count_reset (before after : list (bool * bool))
  (any_flagged : bool) (count : Z) :
  session_count count (before ++ (any_flagged, true) :: after)
  = session_count 0 after.
Proof.
  unfold session_count. rewrite fold_left_app. reflexivity.
Qed.

Section PipelineFacts.

Context {E : Externals}.

(** When the loop over the hands ends normally, the flag is set exactly
    when it was set before or one of the hands is flagged. *)
Lemma process_hands_flag (multi_hand_landmarks : list (list Landmark.t)) :
  forall (frame frame' : ndarray) (detected detected' : bool),
    process_hands frame detected multi_hand_landmarks = (frame', Ok detected') ->
    detected' = detected || existsb flagged_hand multi_hand_landmarks.
Proof.
  induction multi_hand_landmarks as [|hand rest IH];
    intros frame frame' detected detected'; simpl.
  - intros [= _ <-]. now rewrite orb_false_r.
  - unfold flagged_hand at 1.
    destruct (is_middle_finger_up hand) as [[|]|]; [| |discriminate].
    + destruct (blur_hand_region _ _ _ _) as [frame1|]; [|discriminate].
      destruct (putText frame1 _ _) as [frame2 [[]|]]; [|discriminate].
      intros H. apply IH in H. rewrite H. simpl. now rewrite orb_true_r.
    + destruct (draw_landmarks frame hand) as [frame1 [[]|]]; [|discriminate].
      intros H. apply IH in H. now rewrite H.
Qed.

(** [process_frame] never raises. *)
Lemma process_frame_total (hands : provider) (frame : ndarray) :
  exists (hands' : provider) (frame' : ndarray) (detected : bool),
    process_frame hands frame = (hands', Ok (frame', detected)).
Proof.
  unfold process_frame.
  destruct (cvtColor frame) as [rgb|]; [|eauto].
  destruct (hands_process hands rgb) as [hands1 [multi|]]; [|eauto].
  destruct (process_hands frame false multi) as [frame1 [d|]]; eauto.
Qed.

(** A frame is reported as flagged only if the provider found a flagged
    hand in it, and it is whenever the loop over its hands ends
    normally and one of them, or several, are flagged. *)
Lemma process_frame_flag (hands hands' : provider) (frame frame' : ndarray)
  (detected : bool) :
  process_frame hands frame = (hands', Ok (frame', detected)) ->
  (detected = true ->
   exists (rgb_frame : ndarray) (multi_hand_landmarks : list (list Landmark.t)),
     cvtColor frame = Ok rgb_frame
     /\ hands_process hands rgb_frame = (hands', Ok multi_hand_landmarks)
     /\ existsb flagged_hand multi_hand_landmarks = true)
  /\ (forall (rgb_frame : ndarray)
             (multi_hand_landmarks : list (list Landmark.t)) (d : bool),
        cvtColor frame = Ok rgb_frame ->
        hands_process hands rgb_frame = (hands', Ok multi_hand_landmarks) ->
        process_hands frame false multi_hand_landmarks = (frame', Ok d) ->
        detected = existsb flagged_hand multi_hand_landmarks).
Proof.
  unfold process_frame.
  intros H. split.
  - intros ->.
    destruct (cvtColor frame) as [rgb|]; [|discriminate].
    destruct (hands_process hands rgb) as [hands1 [multi|]] eqn:Hp;
      [|discriminate].
    destruct (process_hands frame false multi) as [frame1 [d|]] eqn:Hh;
      [|discriminate].
    injection H as <- <- ->.
    exists rgb, multi. repeat split; try assumption.
    now apply process_hands_flag in Hh.
  - intros rgb multi d Hc Hp Hh.
    rewrite Hc, Hp, Hh in H. injection H as <-.
    now apply process_hands_flag in Hh.
Qed.

(** The counter after one iteration that ends normally. *)
Lemma main_iteration_count (s s' : loop_state) (t : tick) (ctl : control) :
  main_iteration s t = Ok (ctl, s') ->
  detection_count s'
  = session_step (detection_count s) (reported s t, reset_signal t).
Proof.
  unfold main_iteration, reported, reset_signal, session_step.
  destruct (read t) as [[|] frame]; simpl;
    [|now intros [= _ <-]].
  destruct (flip frame 1) as [frame1|]; simpl; [|discriminate].
  destruct (process_frame _ _)
    as [hands [[processed detected]|]]; simpl; [|discriminate].
  destruct (shape processed) as [[h w] c].
  destruct (putText processed _ _) as [processed1 [[]|]]; simpl;
    [|discriminate].
  destruct (shape processed1) as [[h1 w1] c1].
  destruct (putText processed1 _ _) as [processed2 [[]|]]; simpl;
    [|discriminate].
  destruct (imshow processed2) as [[]|]; simpl; [|discriminate].
  destruct (Z.land (waitKey t) 255 =? ord_q) eqn:Hq.
  - apply Z.eqb_eq in Hq. rewrite Hq. simpl.
    now intros [= _ <-].
  - destruct (Z.land (waitKey t) 255 =? ord_r); now intros [= _ <-].
Qed.

(** The counter after a run of the loop that ends normally is the
    counter of the specification over the events of the run. *)
Lemma main_loop_count (ticks : list tick) :
  forall (s s' : loop_state) (ctl : control),
    main_loop s ticks = Ok (ctl, s') ->
    detection_count s' = session_count (detection_count s) (run_events s ticks).
Proof.
  induction ticks as [|t ticks' IH]; intros s s' ctl;
    unfold session_count; cbn [main_loop run_events fold_left].
  - now intros [= _ <-].
  - destruct (main_iteration s t) as [[[|] s1]|] eqn:Hit; [| |discriminate].
    + intros Hrun.
      rewrite <- (main_iteration_count _ _ _ _ Hit).
      now apply IH in Hrun.
    + intros [= _ <-]. cbn [fold_left].
      now apply main_iteration_count in Hit.
Qed.

(** When the flip, the text overlays and the display do not raise, an
    iteration ends normally, and so does every run of the loop. *)
Lemma main_iteration_returns (s : loop_state) (t : tick) :
  display_succeeds ->
  exists (ctl : control) (s' : loop_state), main_iteration s t = Ok (ctl, s').
Proof.
  intros (Hflip & Htext & Hshow). unfold main_iteration.
  destruct (read t) as [[|] frame]; simpl; [|eauto].
  destruct (Hflip frame 1) as [frame1 ->]; simpl.
  destruct (process_frame_total (detector s) frame1)
    as (hands & processed & detected & ->); simpl.
  destruct (shape processed) as [[h w] c].
  match goal with
  | |- context [putText ?f ?x ?o] =>
      pose proof (Htext f x o) as H1; destruct (putText f x o) as [processed1 r1]
  end.
  simpl in H1; subst r1; simpl.
  destruct (shape processed1) as [[h1 w1] c1].
  match goal with
  | |- context [putText ?f ?x ?o] =>
      pose proof (Htext f x o) as H2; destruct (putText f x o) as [processed2 r2]
  end.
  simpl in H2; subst r2; simpl.
  rewrite Hshow; simpl.
  destruct (_ =? ord_q); [eauto|]. destruct (_ =? ord_r); eauto.
Qed.

Lemma main_loop_returns (ticks : list tick) :
  display_succeeds ->
  forall s : loop_state,
  exists (ctl : control) (s' : loop_state), main_loop s ticks = Ok (ctl, s').
Proof.
  intros Hd. induction ticks as [|t ticks' IH]; intros s; simpl; [eauto|].
  destruct (main_iteration_returns s t Hd) as ([|] & s1 & ->); eauto.
Qed.

(** The frame of an iteration is reported as flagged only if a frame
    was read and flipped, its colours converted, and the provider found
    in it a hand that the classifier flags. *)
Lemma reported_flagged_hand (s : loop_state) (t : tick) :
  reported s t = true ->
  fst (read t) = true
  /\ exists (frame1 rgb_frame : ndarray) (hands1 : provider)
            (multi_hand_landmarks : list (list Landmark.t)),
       flip (snd (read t)) 1 = Ok frame1
       /\ cvtColor frame1 = Ok rgb_frame
       /\ hands_process (detector s) rgb_frame
          = (hands1, Ok multi_hand_landmarks)
       /\ existsb flagged_hand multi_hand_landmarks = true.
Proof.
  unfold reported.
  destruct (read t) as [[|] frame]; [|discriminate]. simpl.
  destruct (flip frame 1) as [frame1|]; [|discriminate].
  destruct (process_frame (detector s) frame1) as [hands1 r] eqn:Hpf.
  simpl. destruct r as [[processed detected]|]; [|discriminate].
  intros ->. split; [reflexivity|].
  destruct (proj1 (process_frame_flag _ _ _ _ _ Hpf) eq_refl)
    as (rgb & multi & Hc & Hp & Hex).
  exists frame1, rgb, hands1, multi. auto.
Qed.

(** C9. After every sequence of iterations of the capture loop that
    ends normally the counter is the counter of the specification over
    the events of the sequence; in the next iteration it becomes 0 on a
    reset signal whatever it was, and otherwise grows by exactly 1 when
    the frame is reported as flagged and stays as it is when the frame
    is not. A frame is reported as flagged only if the provider found in
    it at least one hand that the classifier flags, so that the counter
    stays as it is after a frame with no flagged hand, also when a call
    raised while the frame was processed; and a frame is reported as
    flagged when the loop over its hands ends normally and at least one
    hand is flagged, however many are. *)
Theorem detection_counter (s : loop_state) (ticks : list tick)
  (ctl : control) (s' : loop_state) :
  main_loop s ticks = Ok (ctl, s') ->
  detection_count s'
  = session_count (detection_count s) (run_events s ticks)
  /\ (forall (t : tick) (ctl1 : control) (s1 : loop_state),
        main_iteration s' t = Ok (ctl1, s1) ->
        (reset_signal t = true -> detection_count s1 = 0)
        /\ (reset_signal t = false -> reported s' t = true ->
            detection_count s1 = detection_count s' + 1)
        /\ (reset_signal t = false -> reported s' t = false ->
            detection_count s1 = detection_count s'))
  /\ (forall (hands hands' : provider) (frame frame' rgb_frame : ndarray)
             (multi_hand_landmarks : list (list Landmark.t))
             (detected d : bool),
        process_frame hands frame = (hands', Ok (frame', detected)) ->
        cvtColor frame = Ok rgb_frame ->
        hands_process hands rgb_frame = (hands', Ok multi_hand_landmarks) ->
        process_hands frame false multi_hand_landmarks = (frame', Ok d) ->
        detected = existsb flagged_hand multi_hand_landmarks)
  /\ (forall (hands hands' : provider) (frame frame' : ndarray),
        process_frame hands frame = (hands', Ok (frame', true)) ->
        exists (rgb_frame : ndarray)
               (multi_hand_landmarks : list (list Landmark.t)),
          cvtColor frame = Ok rgb_frame
          /\ hands_process hands rgb_frame = (hands', Ok multi_hand_landmarks)
          /\ existsb flagged_hand multi_hand_landmarks = true)
  /\ (forall t : tick,
        reported s' t = true ->
        fst (read t) = true
        /\ exists (frame1 rgb_frame : ndarray) (hands1 : provider)
                  (multi_hand_landmarks : list (list Landmark.t)),
             flip (snd (read t)) 1 = Ok frame1
             /\ cvtColor frame1 = Ok rgb_frame
             /\ hands_process (detector s') rgb_frame
                = (hands1, Ok multi_hand_landmarks)
             /\ existsb flagged_hand multi_hand_landmarks = true)
  /\ (forall (t : tick) (ctl1 : control) (s1 : loop_state),
        main_iteration s' t = Ok (ctl1, s1) ->
        reset_signal t = false ->
        (forall (frame1 rgb_frame : ndarray) (hands1 : provider)
                (multi_hand_landmarks : list (list Landmark.t)),
            flip (snd (read t)) 1 = Ok frame1 ->
            cvtColor frame1 = Ok rgb_frame ->
            hands_process (detector s') rgb_frame
            = (hands1, Ok multi_hand_landmarks) ->
            existsb flagged_hand multi_hand_landmarks = false) ->
        detection_count s1 = detection_count s').
Proof.
  intros Hrun. split; [|split; [|split; [|split; [|split]]]].
  - now apply main_loop_count in Hrun.
  - intros t ctl1 s1 Hit. apply main_iteration_count in Hit.
    rewrite Hit. unfold session_step.
    repeat split; intros ->; try intros ->; reflexivity.
  - intros hands hands' frame frame' rgb multi detected d H Hc Hp Hh.
    exact (proj2 (process_frame_flag _ _ _ _ _ H) _ _ _ Hc Hp Hh).
  - intros hands hands' frame frame' H.
    exact (proj1 (process_frame_flag _ _ _ _ _ H) eq_refl).
  - intros t. apply reported_flagged_hand.
  - intros t ctl1 s1 Hit Hreset Hnone.
    apply main_iteration_count in Hit. rewrite Hit, Hreset.
    unfold session_step.
    destruct (reported s' t) eqn:Hrep; [|reflexivity].
    destruct (reported_flagged_hand _ _ Hrep)
      as (_ & frame1 & rgb & hands1 & multi & Hf & Hc & Hp & Hex).
    rewrite (Hnone _ _ _ _ Hf Hc Hp) in Hex. discriminate.
Qed.

End PipelineFacts.

Lemma detection_counter_witness :
  exists s' : loop_state (E := stand_ins),
    main (E := stand_ins) sample_script sample_ticks = Ok (Continue, s')
    /\ run_events (mk_loop_state (E := stand_ins) sample_script 0) sample_ticks
       = [(true, false); (false, false); (true, true); (true, false)]
    /\ detection_count s' = 1.
Proof.
  destruct (main (E := stand_ins) sample_script sample_ticks)
    as [[ctl s']|] eqn:Hrun; [|vm_compute in Hrun; discriminate].
  assert (Hctl : ctl = Continue)
    by (vm_compute in Hrun; now injection Hrun as <- _).
  subst ctl. exists s'. split; [reflexivity|].
  assert (Hev : run_events (mk_loop_state (E := stand_ins) sample_script 0)
                  sample_ticks
                = [(true, false); (false, false); (true, true); (true, false)])
    by (vm_compute; reflexivity).
  split; [exact Hev|].
  rewrite (proj1 (detection_counter (E := stand_ins) _ _ _ _ Hrun)).
  rewrite Hev. reflexivity.
Defined.

(** * Further properties of the code *)

(** ** The classifier *)

(** Mirroring both floats reverses a comparison. *)
Lemma SFcompare_opp (a b : Py.float) :
  SFcompare (SFopp a) (SFopp b) = option_map CompOpp (SFcompare a b).
Proof.
  destruct a as [sa|sa| |sa ma ea], b as [sb|sb| |sb mb eb]; simpl;
    try reflexivity;
    try (destruct sa; reflexivity);
    try (destruct sb; reflexivity);
    try (destruct sa, sb; reflexivity).
  destruct sa, sb; simpl; try reflexivity;
    destruct (ea ?= eb); simpl; try reflexivity.
  now rewrite CompOpp_involutive.
Qed.

Lemma lt_opp (a b : Py.float) : Py.lt (SFopp a) (SFopp b) = Py.lt b a.
Proof.
  unfold Py.lt, SFltb. rewrite SFcompare_opp, (SFcompare_swap a b).
  reflexivity.
Qed.

(** [<] is asymmetric. *)
Lemma lt_asym (a b : Py.float) : Py.lt a b = true -> Py.lt b a = false.
Proof.
  unfold Py.lt, SFltb. rewrite (SFcompare_swap a b).
  destruct (SFcompare a b) as [[| |]|]; simpl; congruence.
Qed.

Lemma y_of_upside_down (landmarks : list Landmark.t) (i : nat) :
  (i < length landmarks)%nat ->
  y_of (upside_down landmarks) i = SFopp (y_of landmarks i).
Proof.
  intros Hi. unfold y_of, upside_down.
  rewrite (nth_indep _ origin (mirror_y origin)) by (rewrite length_map; lia).
  rewrite map_nth. reflexivity.
Qed.

(** A flagged hand has at least 21 points. *)
Lemma flagged_has_21_points (landmarks : list Landmark.t) :
  is_middle_finger_up landmarks = Ok true -> (21 <= length landmarks)%nat.
Proof.
  intros H. destruct (Nat.lt_ge_cases (length landmarks) 21) as [Hlt|Hge];
    [|assumption].
  rewrite (is_middle_finger_up_short _ Hlt) in H. discriminate.
Qed.

(** X1. Only upright gestures are flagged: the verdict of a hand turned
    upside down is the conjunction of the reversed tests, so a hand and
    its mirror image in the horizontal axis are never both flagged. *)
Theorem upside_down_hand_not_flagged (landmarks : list Landmark.t) :
  (21 <= length landmarks)%nat ->
  is_middle_finger_up (upside_down landmarks)
  = Ok (Py.gt (y_of landmarks 12) (y_of landmarks 10)
        && Py.lt (y_of landmarks 8) (y_of landmarks 6)
        && Py.lt (y_of landmarks 16) (y_of landmarks 14)
        && Py.lt (y_of landmarks 20) (y_of landmarks 18))
  /\ (is_middle_finger_up landmarks = Ok true ->
      is_middle_finger_up (upside_down landmarks) = Ok false).
Proof.
  intros Hlen.
  assert (Hup : is_middle_finger_up (upside_down landmarks)
                = Ok (Py.gt (y_of landmarks 12) (y_of landmarks 10)
                      && Py.lt (y_of landmarks 8) (y_of landmarks 6)
                      && Py.lt (y_of landmarks 16) (y_of landmarks 14)
                      && Py.lt (y_of landmarks 20) (y_of landmarks 18))).
  { rewrite is_middle_finger_up_full
      by (unfold upside_down; rewrite length_map; lia).
    unfold Py.gt. rewrite !y_of_upside_down by lia.
    now rewrite !lt_opp. }
  split; [exact Hup|].
  rewrite Hup, is_middle_finger_up_full by lia.
  intros [= H]. f_equal.
  apply andb_true_iff in H as [H _]. apply andb_true_iff in H as [H _].
  apply andb_true_iff in H as [H _].
  pose proof (lt_asym _ _ H) as Ha.
  unfold Py.gt, Py.lt in *. now rewrite Ha.
Qed.

Lemma upside_down_hand_not_flagged_witness :
  is_middle_finger_up (upside_down flagged_sample) = Ok false.
Proof.
  apply (proj2 (upside_down_hand_not_flagged flagged_sample
                  ltac:(vm_compute; lia))).
  vm_compute. reflexivity.
Defined.

(** X2. The verdict depends on the y-coordinates of the landmarks 6, 8,
    10, 12, 14, 16, 18 and 20 only: two sets of at least 21 points that
    agree on them get the same verdict, whatever their other points,
    their x and z coordinates and their lengths. *)
Theorem verdict_depends_on_compared_ys (l1 l2 : list Landmark.t) :
  (21 <= length l1)%nat -> (21 <= length l2)%nat ->
  (forall i : nat, In i compared_landmarks -> y_of l1 i = y_of l2 i) ->
  is_middle_finger_up l1 = is_middle_finger_up l2.
Proof.
  intros H1 H2 Hy.
  rewrite (is_middle_finger_up_full l1), (is_middle_finger_up_full l2) by lia.
  rewrite !(Hy _) by (simpl; tauto). reflexivity.
Qed.

Lemma verdict_depends_on_compared_ys_witness :
  is_middle_finger_up flagged_sample = is_middle_finger_up offscreen_sample.
Proof.
  apply (verdict_depends_on_compared_ys flagged_sample offscreen_sample).
  - vm_compute. lia.
  - vm_compute. lia.
  - intros i Hi. simpl in Hi.
    repeat (destruct Hi as [<-|Hi]; [vm_compute; reflexivity|]).
    destruct Hi.
Defined.

(** X3. A NaN among the compared y-coordinates makes the hand normal,
    whatever the other coordinates and the length of the set. *)
Theorem nan_coordinate_is_normal (landmarks : list Landmark.t) (i : nat) :
  In i compared_landmarks ->
  y_of landmarks i = S754_nan ->
  is_middle_finger_up landmarks = Ok false.
Proof.
  intros Hi Hnan.
  destruct (Nat.lt_ge_cases (length landmarks) 21) as [Hlt|Hge];
    [now apply is_middle_finger_up_short|].
  rewrite is_middle_finger_up_full by assumption. f_equal. unfold Py.gt.
  simpl in Hi.
  repeat (destruct Hi as [<-|Hi];
          [rewrite Hnan;
           rewrite ?(proj1 (nan_not_lt _)), ?(proj2 (nan_not_lt _));
           rewrite ?andb_false_r; reflexivity|]).
  destruct Hi.
Qed.

Lemma nan_coordinate_is_normal_witness :
  is_middle_finger_up nan_sample = Ok false.
Proof.
  apply (nan_coordinate_is_normal nan_sample 16).
  - simpl. tauto.
  - vm_compute. reflexivity.
Defined.

(** X4. The classifier of the demo has no handler: on fewer than 21
    points it raises [IndexError] where the classifier of the detector
    returns [False]; on 21 points or more the two agree. *)
Theorem demo_classifier_and_detector (landmarks : list (Py.float * Py.float)) :
  ((length landmarks < 21)%nat ->
   is_middle_finger_gesture_demo landmarks = Raise Py.IndexError
   /\ is_middle_finger_up (map landmark_of landmarks) = Ok false)
  /\ ((21 <= length landmarks)%nat ->
      is_middle_finger_gesture_demo landmarks
      = is_middle_finger_up (map landmark_of landmarks)).
Proof.
  split; [|apply demo_agrees_with_detector].
  intros Hlen. split.
  - unfold is_middle_finger_gesture_demo.
    rewrite (getitem_outside landmarks 20) by lia.
    repeat (match goal with
            | |- context [Py.getitem landmarks ?i] =>
                let E := fresh "E" in
                destruct (Py.getitem landmarks i) eqn:E; simpl;
                [|unfold Py.getitem in E;
                  destruct (nth_error landmarks i); congruence]
            end).
    reflexivity.
  - apply is_middle_finger_up_short. now rewrite length_map.
Qed.

Lemma demo_classifier_and_detector_witness :
  is_middle_finger_gesture_demo (firstn 20 middle_finger_landmarks)
  = Raise Py.IndexError
  /\ is_middle_finger_gesture_demo middle_finger_landmarks
     = is_middle_finger_up (map landmark_of middle_finger_landmarks).
Proof.
  split.
  - apply (proj1 (demo_classifier_and_detector
                    (firstn 20 middle_finger_landmarks))).
    vm_compute. lia.
  - apply (proj2 (demo_classifier_and_detector middle_finger_landmarks)).
    vm_compute. lia.
Defined.

(** ** The redactor *)

Section ComprehensionFacts.

Context {A B : Type}.
Variable f : A -> result B.

(** A comprehension that ends normally has evaluated every element. *)
Lemma comprehension_In (l : list A) :
  forall bs : list B,
    Py.comprehension f l = Ok bs ->
    forall v : A, In v l -> exists b : B, f v = Ok b /\ In b bs.
Proof.
  induction l as [|a l IH]; intros bs Hc v Hv; [destruct Hv|].
  simpl in Hc.
  destruct (f a) as [b|] eqn:Hfa; [simpl in Hc|discriminate].
  destruct (Py.comprehension f l) as [bs'|]; [simpl in Hc|discriminate].
  injection Hc as <-.
  destruct Hv as [<-|Hv].
  - exists b. split; [assumption|now left].
  - destruct (IH bs' eq_refl v Hv) as (b' & Hb' & Hin).
    exists b'. split; [assumption|now right].
Qed.

(** An element whose expression raises makes the comprehension raise. *)
Lemma comprehension_raises (l : list A) (v : A) (e : Py.exn) :
  In v l -> f v = Raise e -> exists e' : Py.exn, Py.comprehension f l = Raise e'.
Proof.
  intros Hv Hf.
  destruct (Py.comprehension f l) as [bs|e'] eqn:Hc; [|eauto].
  destruct (comprehension_In l bs Hc v Hv) as (b & Hb & _). congruence.
Qed.

End ComprehensionFacts.

Lemma fold_min_le (l : list Z) :
  forall v : Z, fold_left Z.min l v <= v
                /\ forall b : Z, In b l -> fold_left Z.min l v <= b.
Proof.
  induction l as [|a l IH]; intros v; simpl.
  - split; [lia|intros b []].
  - destruct (IH (Z.min v a)) as [H1 H2]. split; [lia|].
    intros b [<-|Hb]; [lia|now apply H2].
Qed.

Lemma fold_max_ge (l : list Z) :
  forall v : Z, v <= fold_left Z.max l v
                /\ forall b : Z, In b l -> b <= fold_left Z.max l v.
Proof.
  induction l as [|a l IH]; intros v; simpl.
  - split; [lia|intros b []].
  - destruct (IH (Z.max v a)) as [H1 H2]. split; [lia|].
    intros b [<-|Hb]; [lia|now apply H2].
Qed.

(** [min(l)] is below and [max(l)] above every element of [l]. *)
Lemma min_max_bounds (l : list Z) (lo hi : Z) :
  Py.min l = Ok lo -> Py.max l = Ok hi ->
  forall b : Z, In b l -> lo <= b <= hi.
Proof.
  destruct l as [|v l]; [discriminate|]. simpl.
  intros [= <-] [= <-] b Hb.
  destruct (fold_min_le l v) as [Hm1 Hm2].
  destruct (fold_max_ge l v) as [HM1 HM2].
  destruct Hb as [<-|Hb]; [lia|].
  split; [now apply Hm2 | now apply HM2].
Qed.

(** The pixel of a coordinate that is NaN or infinite cannot be
    computed, whatever the size of the axis. *)
Lemma pixel_of_nonfinite (a : Py.float) (n : Z) :
  Py.isfinite a = false -> exists e : Py.exn, pixel a n = Raise e.
Proof.
  intros Ha. unfold pixel, Py.mul_int, Py.float_of_int.
  destruct (binary_normalize Py.prec Py.emax n 0 false) as [sb|sb| |sb mb eb];
    simpl; try (eexists; reflexivity);
    destruct a as [sa|sa| |sa ma ea]; try discriminate; simpl;
    eexists; reflexivity.
Qed.

(** The box, when it is computed, is obtained from the pixels of the
    landmarks. *)
Lemma bounding_box_pixels (h w : Z) (landmarks : list Landmark.t)
  (x_min x_max y_min y_max : Z) :
  bounding_box h w landmarks = Ok (x_min, x_max, y_min, y_max) ->
  forall landmark : Landmark.t, In landmark landmarks ->
  exists px py : Z,
    pixel (Landmark.x landmark) w = Ok px
    /\ pixel (Landmark.y landmark) h = Ok py
    /\ x_min <= Z.max 0 (px - 50) /\ Z.min w (px + 50) <= x_max
    /\ y_min <= Z.max 0 (py - 50) /\ Z.min h (py + 50) <= y_max.
Proof.
  unfold bounding_box. intros Hbox lm Hlm.
  destruct (Py.comprehension _ landmarks) as [x_coords|] eqn:Hx;
    [simpl in Hbox|discriminate].
  destruct (Py.comprehension _ landmarks) as [y_coords|] eqn:Hy in Hbox;
    [simpl in Hbox|discriminate].
  destruct (Py.min x_coords) as [x_lo|] eqn:Hxlo; [simpl in Hbox|discriminate].
  destruct (Py.max x_coords) as [x_hi|] eqn:Hxhi; [simpl in Hbox|discriminate].
  destruct (Py.min y_coords) as [y_lo|] eqn:Hylo; [simpl in Hbox|discriminate].
  destruct (Py.max y_coords) as [y_hi|] eqn:Hyhi; [simpl in Hbox|discriminate].
  injection Hbox as <- <- <- <-.
  destruct (comprehension_In _ _ _ Hx lm Hlm) as (px & Hpx & Hinx).
  destruct (comprehension_In _ _ _ Hy lm Hlm) as (py & Hpy & Hiny).
  pose proof (min_max_bounds _ _ _ Hxlo Hxhi px Hinx).
  pose proof (min_max_bounds _ _ _ Hylo Hyhi py Hiny).
  exists px, py. unfold pixel. repeat split; try assumption; lia.
Qed.

(** A landmark set that is empty or has a coordinate that is NaN or
    infinite has no box. *)
Lemma bounding_box_degenerate (h w : Z) (landmarks : list Landmark.t) :
  landmarks = []
  \/ (exists landmark : Landmark.t,
        In landmark landmarks
        /\ (Py.isfinite (Landmark.x landmark) = false
            \/ Py.isfinite (Landmark.y landmark) = false)) ->
  exists e : Py.exn, bounding_box h w landmarks = Raise e.
Proof.
  intros [->|(lm & Hlm & Hnf)]; [eexists; reflexivity|].
  destruct (bounding_box h w landmarks) as [[[[x0 x1] y0] y1]|e] eqn:Hbox;
    [|eauto].
  destruct (bounding_box_pixels _ _ _ _ _ _ _ Hbox lm Hlm)
    as (px & py & Hpx & Hpy & _).
  destruct Hnf as [Hnf|Hnf].
  - destruct (pixel_of_nonfinite _ w Hnf) as [e He]. congruence.
  - destruct (pixel_of_nonfinite _ h Hnf) as [e He]. congruence.
Qed.

(** X5. The redactor keeps the shape of the frame, for every frame,
    landmark set, blur and kernel size: the returned frame has the rows,
    columns and channels of the frame it was given. *)
Theorem blur_hand_region_keeps_shape
  (GaussianBlur : ndarray -> Z * Z -> Z -> result ndarray)
  (image : ndarray) (landmarks : list Landmark.t) (blur_intensity : Z) :
  exists out : ndarray,
    blur_hand_region GaussianBlur image landmarks blur_intensity = Ok out
    /\ shape out = shape image
    /\ rows out = rows image /\ cols out = cols image
    /\ channels out = channels image.
Proof.
  destruct (blur_hand_region_total GaussianBlur image landmarks blur_intensity)
    as [out Hout].
  exists out. split; [assumption|].
  split; [now apply blur_hand_region_shape in Hout|].
  now apply blur_hand_region_dimensions in Hout.
Qed.

(** X6. When the clamped ends [x_max] and [y_max] of the box are not
    negative, the redactor changes no pixel outside the box. *)
Theorem blur_hand_region_changes_box_only
  (GaussianBlur : ndarray -> Z * Z -> Z -> result ndarray)
  (image out : ndarray) (landmarks : list Landmark.t) (blur_intensity : Z)
  (x_min x_max y_min y_max : Z) :
  blur_hand_region GaussianBlur image landmarks blur_intensity = Ok out ->
  bounding_box (rows image) (cols image) landmarks
    = Ok (x_min, x_max, y_min, y_max) ->
  0 <= x_max -> 0 <= y_max ->
  forall i j k : Z,
    ~ in_box (x_min, x_max, y_min, y_max) i j ->
    item out i j k = item image i j k.
Proof.
  intros Hout Hbox Hx Hy.
  exact (blur_hand_region_outside_box _ _ _ _ _ _ _ _ _ Hout Hbox Hx Hy).
Qed.

Lemma blur_hand_region_changes_box_only_witness :
  exists out : ndarray,
    blur_hand_region mean_blur (checkerboard 300 300) flagged_sample 51 = Ok out
    /\ forall i j k : Z,
         ~ in_box (58, 242, 0, 290) i j ->
         item out i j k = item (checkerboard 300 300) i j k.
Proof.
  destruct (blur_hand_region_total mean_blur (checkerboard 300 300)
              flagged_sample 51) as [out Hout].
  exists out. split; [exact Hout|].
  apply (blur_hand_region_changes_box_only mean_blur (checkerboard 300 300) out
           flagged_sample 51 58 242 0 290 Hout).
  - vm_compute. reflexivity.
  - lia.
  - lia.
Defined.

(** X7. The redactor returns the frame as it was, without a call of the
    blur, when the frame has no element, and when the box has zero area
    and its clamped ends [x_max] and [y_max] are not negative (a hand
    beyond the right or the lower edge, for one). *)
Theorem blur_hand_region_skips_empty_region
  (GaussianBlur : ndarray -> Z * Z -> Z -> result ndarray)
  (image : ndarray) (landmarks : list Landmark.t) (blur_intensity : Z) :
  (size image = 0 ->
   blur_hand_region GaussianBlur image landmarks blur_intensity = Ok image)
  /\ (forall x_min x_max y_min y_max : Z,
        bounding_box (rows image) (cols image) landmarks
          = Ok (x_min, x_max, y_min, y_max) ->
        0 <= x_max -> 0 <= y_max ->
        zero_area (x_min, x_max, y_min, y_max) ->
        blur_hand_region GaussianBlur image landmarks blur_intensity = Ok image).
Proof.
  split.
  - apply blur_hand_region_empty_frame.
  - intros x_min x_max y_min y_max.
    apply blur_hand_region_skips_empty_box.
Qed.

Lemma blur_hand_region_skips_empty_region_witness :
  blur_hand_region mean_blur (checkerboard 0 100) flagged_sample 51
  = Ok (checkerboard 0 100)
  /\ blur_hand_region mean_blur (checkerboard 100 100) far_right_sample 51
     = Ok (checkerboard 100 100).
Proof.
  split.
  - apply (proj1 (blur_hand_region_skips_empty_region mean_blur
                    (checkerboard 0 100) flagged_sample 51)).
    reflexivity.
  - apply (proj2 (blur_hand_region_skips_empty_region mean_blur
                    (checkerboard 100 100) far_right_sample 51)
             486 100 0 100).
    + vm_compute. reflexivity.
    + lia.
    + lia.
    + left. lia.
Defined.

(** X8. For a landmark set that is empty, or that has a NaN or an
    infinite x or y, the redactor cannot compute a box: it returns the
    frame as it was and does not call the blur. *)
Theorem blur_hand_region_without_box
  (GaussianBlur : ndarray -> Z * Z -> Z -> result ndarray)
  (image : ndarray) (landmarks : list Landmark.t) (blur_intensity : Z) :
  landmarks = []
  \/ (exists landmark : Landmark.t,
        In landmark landmarks
        /\ (Py.isfinite (Landmark.x landmark) = false
            \/ Py.isfinite (Landmark.y landmark) = false)) ->
  (exists e : Py.exn,
      bounding_box (rows image) (cols image) landmarks = Raise e)
  /\ blur_hand_region GaussianBlur image landmarks blur_intensity = Ok image.
Proof.
  intros Hdeg.
  destruct (bounding_box_degenerate (rows image) (cols image) landmarks Hdeg)
    as [e He].
  split; [eauto|].
  unfold blur_hand_region, blur_hand_region_body.
  unfold rows, cols in He.
  destruct (shape image) as [[h w] c]; simpl in *.
  now rewrite He.
Qed.

Lemma blur_hand_region_without_box_witness :
  blur_hand_region mean_blur (checkerboard 100 100) nan_sample 51
  = Ok (checkerboard 100 100)
  /\ blur_hand_region mean_blur (checkerboard 100 100) [] 51
     = Ok (checkerboard 100 100).
Proof.
  split.
  - apply (blur_hand_region_without_box mean_blur (checkerboard 100 100)
             nan_sample 51).
    right. exists (Landmark.mk (Py.decimal 59 2) S754_nan (S754_zero false)).
    split; [|right; reflexivity].
    vm_compute. do 16 right. left. reflexivity.
  - apply (blur_hand_region_without_box mean_blur (checkerboard 100 100) [] 51).
    left. reflexivity.
Defined.

(** X9. The box covers the padded neighbourhood of every landmark: when
    the box of a landmark set is computed, each landmark has a pixel
    [(px, py)], and every pixel of the frame less than 50 pixels to the
    right of or below it, or at most 50 to the left of or above it, lies
    in the box. *)
Theorem bounding_box_covers_landmarks (h w : Z) (landmarks : list Landmark.t)
  (x_min x_max y_min y_max : Z) :
  bounding_box h w landmarks = Ok (x_min, x_max, y_min, y_max) ->
  forall landmark : Landmark.t, In landmark landmarks ->
  exists px py : Z,
    pixel (Landmark.x landmark) w = Ok px
    /\ pixel (Landmark.y landmark) h = Ok py
    /\ forall i j : Z,
         0 <= i < h -> 0 <= j < w ->
         py - 50 <= i < py + 50 -> px - 50 <= j < px + 50 ->
         in_box (x_min, x_max, y_min, y_max) i j.
Proof.
  intros Hbox lm Hlm.
  destruct (bounding_box_pixels _ _ _ _ _ _ _ Hbox lm Hlm)
    as (px & py & Hpx & Hpy & Hx0 & Hx1 & Hy0 & Hy1).
  exists px, py. repeat split; try assumption; lia.
Qed.

Lemma bounding_box_covers_landmarks_witness :
  exists px py : Z,
    pixel (Py.decimal 50 2) 300 = Ok px
    /\ pixel (Py.decimal 80 2) 300 = Ok py
    /\ forall i j : Z,
         0 <= i < 300 -> 0 <= j < 300 ->
         py - 50 <= i < py + 50 -> px - 50 <= j < px + 50 ->
         in_box (58, 242, 0, 290) i j.
Proof.
  apply (bounding_box_covers_landmarks 300 300 flagged_sample 58 242 0 290
           ltac:(vm_compute; reflexivity)
           (Landmark.mk (Py.decimal 50 2) (Py.decimal 80 2) (S754_zero false))).
  left. reflexivity.
Defined.

(** X10. Inside the box the frame holds the blurred region: when the
    clamped ends of the box are not negative and the blur returns an
    array of the shape of the region, every element of the returned
    frame at a pixel of the box is the element of the blurred region at
    the same place, counted from the corner [(y_min, x_min)]. *)
Theorem blur_hand_region_writes_blurred_region
  (GaussianBlur : ndarray -> Z * Z -> Z -> result ndarray)
  (image out blurred_region : ndarray) (landmarks : list Landmark.t)
  (blur_intensity x_min x_max y_min y_max : Z) :
  blur_hand_region GaussianBlur image landmarks blur_intensity = Ok out ->
  bounding_box (rows image) (cols image) landmarks
    = Ok (x_min, x_max, y_min, y_max) ->
  0 <= x_max -> 0 <= y_max ->
  GaussianBlur (getslice image y_min y_max x_min x_max)
    (blur_intensity, blur_intensity) 0 = Ok blurred_region ->
  shape blurred_region = shape (getslice image y_min y_max x_min x_max) ->
  forall i j k : Z,
    in_box (x_min, x_max, y_min, y_max) i j ->
    0 <= k < channels image ->
    item out i j k = item blurred_region (i - y_min) (j - x_min) k.
Proof.
  intros Hout Hbox Hx Hy Hblur Hshape i j k [Hi Hj] Hk.
  destruct (bounding_box_clamped _ _ _ _ _ _ _ Hbox)
    as (x_lo & x_hi & y_lo & y_hi & Hxmin & Hxmax & Hymin & Hymax).
  unfold blur_hand_region, blur_hand_region_body in Hout.
  unfold rows, cols, channels in *.
  destruct (shape image) as [[h w] c] eqn:Hs; simpl in *.
  rewrite Hbox in Hout; simpl in Hout.
  assert (Hrange : slice_range image y_min y_max x_min x_max
                   = (y_min, y_max, x_min, x_max)).
  { unfold slice_range. rewrite Hs.
    now rewrite !slice_bound_inside by lia. }
  assert (Hregion : shape (getslice image y_min y_max x_min x_max)
                    = (Z.to_nat (y_max - y_min), Z.to_nat (x_max - x_min), c)).
  { unfold getslice. now rewrite Hs, Hrange. }
  assert (Hsize : (0 <? size (getslice image y_min y_max x_min x_max)) = true).
  { apply Z.ltb_lt. unfold size. rewrite Hregion.
    apply Z.mul_pos_pos; [apply Z.mul_pos_pos|]; lia. }
  rewrite Hsize, Hblur in Hout; simpl in Hout.
  unfold setslice in Hout. rewrite Hs, Hrange in Hout.
  rewrite Hregion in Hshape. rewrite Hshape in Hout.
  unfold broadcasts in Hout. rewrite !Nat.eqb_refl in Hout.
  simpl in Hout. injection Hout as <-. simpl.
  replace ((y_min <=? i) && (i <? y_max) && (x_min <=? j) && (j <? x_max)
           && (0 <=? k) && (k <? Z.of_nat c)) with true
    by (symmetry; rewrite !andb_true_iff;
        repeat split; (apply Z.leb_le || apply Z.ltb_lt); lia).
  unfold broadcast_index.
  destruct (Nat.eqb_spec (Z.to_nat (y_max - y_min)) 1) as [E1|_];
    [replace (i - y_min) with 0 by lia|];
    (destruct (Nat.eqb_spec (Z.to_nat (x_max - x_min)) 1) as [E2|_];
     [replace (j - x_min) with 0 by lia|]);
    (destruct (Nat.eqb_spec c 1) as [E3|_];
     [replace k with 0 by lia|]); reflexivity.
Qed.

Lemma blur_hand_region_writes_blurred_region_witness :
  exists out blurred_region : ndarray,
    blur_hand_region mean_blur (checkerboard 300 300) flagged_sample 51 = Ok out
    /\ mean_blur (getslice (checkerboard 300 300) 0 290 58 242) (51, 51) 0
       = Ok blurred_region
    /\ forall i j k : Z,
         in_box (58, 242, 0, 290) i j -> 0 <= k < 3 ->
         item out i j k = item blurred_region (i - 0) (j - 58) k.
Proof.
  destruct (blur_hand_region_total mean_blur (checkerboard 300 300)
              flagged_sample 51) as [out Hout].
  destruct (mean_blur (getslice (checkerboard 300 300) 0 290 58 242) (51, 51) 0)
    as [blurred|e] eqn:Hblur; [|discriminate].
  exists out, blurred. split; [exact Hout|]. split; [reflexivity|].
  apply (blur_hand_region_writes_blurred_region mean_blur
           (checkerboard 300 300) out blurred flagged_sample 51 58 242 0 290
           Hout).
  - vm_compute. reflexivity.
  - lia.
  - lia.
  - exact Hblur.
  - injection Hblur as <-. reflexivity.
Defined.

(** ** The pipeline *)

Lemma session_count_bounds (events : list (bool * bool)) :
  forall count : Z,
    0 <= count ->
    0 <= session_count count events <= count + Z.of_nat (length events).
Proof.
  unfold session_count.
  induction events as [|[any_flagged reset] events IH]; intros count Hc.
  - simpl. lia.
  - cbn [fold_left length].
    assert (Hstep : 0 <= session_step count (any_flagged, reset) <= count + 1)
      by (unfold session_step; destruct reset, any_flagged; lia).
    specialize (IH _ (proj1 Hstep)). lia.
Qed.

Section FurtherPipelineFacts.

Context {E : Externals}.

Lemma run_events_length (ticks : list tick) :
  forall s : loop_state, (length (run_events s ticks) <= length ticks)%nat.
Proof.
  induction ticks as [|t ticks' IH]; intros s; cbn [run_events length]; [lia|].
  destruct (main_iteration s t) as [[[|] s1]|]; cbn [length];
    try specialize (IH s1); lia.
Qed.

(** The loop over the hands leaves the shape of the frame as it is when
    the drawing calls do, however it ends. *)
Lemma process_hands_shape (multi_hand_landmarks : list (list Landmark.t)) :
  drawing_keeps_shape ->
  forall (frame frame' : ndarray) (detected : bool) (r : result bool),
    process_hands frame detected multi_hand_landmarks = (frame', r) ->
    shape frame' = shape frame.
Proof.
  intros [Htext Hdraw].
  induction multi_hand_landmarks as [|hand rest IH];
    intros frame frame' detected r; simpl.
  - now intros [= <- _].
  - destruct (is_middle_finger_up hand) as [[|]|]; [| |now intros [= <- _]].
    + destruct (blur_hand_region _ _ _ _) as [frame1|] eqn:Hblur;
        [|now intros [= <- _]].
      apply blur_hand_region_shape in Hblur.
      pose proof (Htext frame1 warning_text (50, 50)) as Ht.
      destruct (putText frame1 _ _) as [frame2 [[]|]]; simpl in Ht.
      * intros H. apply IH in H. congruence.
      * intros [= <- _]. congruence.
    + pose proof (Hdraw frame hand) as Hd.
      destruct (draw_landmarks frame hand) as [frame1 [[]|]]; simpl in Hd.
      * intros H. apply IH in H. congruence.
      * intros [= <- _]. congruence.
Qed.

(** X11. [process_frame] never raises: a failure of the colour
    conversion or of the landmark provider gives the frame as it was
    with the flag [False], as does a frame in which the provider finds
    no hand; the conversion failing, the provider is not called. *)
Theorem process_frame_never_raises (hands : provider) (frame : ndarray) :
  (exists (hands' : provider) (frame' : ndarray) (detected : bool),
      process_frame hands frame = (hands', Ok (frame', detected)))
  /\ (forall e : Py.exn,
        cvtColor frame = Raise e ->
        process_frame hands frame = (hands, Ok (frame, false)))
  /\ (forall (rgb_frame : ndarray) (hands1 : provider) (e : Py.exn),
        cvtColor frame = Ok rgb_frame ->
        hands_process hands rgb_frame = (hands1, Raise e) ->
        process_frame hands frame = (hands1, Ok (frame, false)))
  /\ (forall (rgb_frame : ndarray) (hands1 : provider),
        cvtColor frame = Ok rgb_frame ->
        hands_process hands rgb_frame = (hands1, Ok []) ->
        process_frame hands frame = (hands1, Ok (frame, false))).
Proof.
  split; [apply process_frame_total|].
  unfold process_frame. repeat split.
  - now intros e ->.
  - now intros rgb hands1 e -> ->.
  - now intros rgb hands1 -> ->.
Qed.

(** X12. The pipeline keeps the shape of the frame: when the drawing
    calls leave the shape as it is, the frame that [process_frame]
    returns has the shape of the frame it was given, whatever the hands
    and whether or not a call raised on the way. *)
Theorem process_frame_keeps_shape (hands : provider) (frame : ndarray) :
  drawing_keeps_shape ->
  exists (hands' : provider) (frame' : ndarray) (detected : bool),
    process_frame hands frame = (hands', Ok (frame', detected))
    /\ shape frame' = shape frame.
Proof.
  intros Hkeep. unfold process_frame.
  destruct (cvtColor frame) as [rgb|]; [|eauto 6].
  destruct (hands_process hands rgb) as [hands1 [multi|]]; [|eauto 6].
  destruct (process_hands frame false multi) as [frame1 r] eqn:Hh.
  apply (process_hands_shape _ Hkeep) in Hh.
  destruct r; eauto 6.
Qed.

(** X14. From a counter that is not negative the loop keeps it so, and
    a run of [n] iterations raises it by [n] at most: the counter of
    [main], which starts at 0, lies between 0 and the number of
    iterations. *)
Theorem detection_count_bounds (s s' : loop_state) (ticks : list tick)
  (ctl : control) :
  main_loop s ticks = Ok (ctl, s') ->
  0 <= detection_count s ->
  0 <= detection_count s'
  <= detection_count s + Z.of_nat (length ticks).
Proof.
  intros Hrun Hc. rewrite (main_loop_count _ _ _ _ Hrun).
  pose proof (session_count_bounds (run_events s ticks) _ Hc).
  pose proof (run_events_length ticks s). lia.
Qed.

Lemma land_255 (k : Z) : Z.land k 255 = k mod 256.
Proof. change 255 with (Z.ones 8). now rewrite Z.land_ones by lia. Qed.

(** X16. An iteration that ends normally leaves the loop exactly when no
    frame could be read or the low byte of the key code is that of ['q'];
    when no frame could be read the state is left as it was. *)
Theorem main_iteration_break (s s' : loop_state) (t : tick) (ctl : control) :
  main_iteration s t = Ok (ctl, s') ->
  (ctl = Break <-> fst (read t) = false \/ waitKey t mod 256 = ord_q)
  /\ (fst (read t) = false -> s' = s).
Proof.
  unfold main_iteration. rewrite land_255.
  destruct (read t) as [[|] frame]; simpl.
  - destruct (flip frame 1) as [frame1|]; simpl; [|discriminate].
    destruct (process_frame _ _)
      as [hands [[processed detected]|]]; simpl; [|discriminate].
    destruct (shape processed) as [[h w] c].
    destruct (putText processed _ _) as [processed1 [[]|]]; simpl;
      [|discriminate].
    destruct (shape processed1) as [[h1 w1] c1].
    destruct (putText processed1 _ _) as [processed2 [[]|]]; simpl;
      [|discriminate].
    destruct (imshow processed2) as [[]|]; simpl; [|discriminate].
    destruct (Z.eqb_spec (waitKey t mod 256) ord_q) as [Hq|Hq].
    + intros [= <- _]. split; [|discriminate]. split; auto.
    + destruct (_ =? ord_r); intros [= <- _];
        (split; [|discriminate]); split;
        [discriminate | intros [H|H]; [discriminate|contradiction]
        |discriminate | intros [H|H]; [discriminate|contradiction]].
  - intros [= <- <-]. split; [|reflexivity]. split; auto.
Qed.

(** X17. An iteration depends on the key code only through its low
    byte: key codes that differ by a multiple of 256 give the same
    iteration. *)
Theorem key_code_low_byte (s : loop_state) (r : bool * ndarray) (k n : Z) :
  main_iteration s (mk_tick r (k + 256 * n)) = main_iteration s (mk_tick r k).
Proof.
  unfold main_iteration. cbn [read waitKey].
  rewrite !land_255.
  replace ((k + 256 * n) mod 256) with (k mod 256)
    by (rewrite Z.mul_comm, Z_mod_plus_full; reflexivity).
  reflexivity.
Qed.

End FurtherPipelineFacts.

Lemma process_frame_never_raises_witness :
  process_frame (E := stand_ins) [[]] (checkerboard 4 4)
  = ([], Ok (checkerboard 4 4, false)).
Proof.
  apply (proj2 (proj2 (proj2 (process_frame_never_raises (E := stand_ins)
                                [[]] (checkerboard 4 4))))
           (checkerboard 4 4) []);
    reflexivity.
Defined.

Lemma process_frame_keeps_shape_witness :
  exists (hands' : provider (Externals := stand_ins)) (frame' : ndarray)
         (detected : bool),
    process_frame (E := stand_ins) [[flagged_sample; normal_sample]]
      (checkerboard 100 100)
    = (hands', Ok (frame', detected))
    /\ shape frame' = shape (checkerboard 100 100).
Proof.
  apply (process_frame_keeps_shape (E := stand_ins)).
  split; reflexivity.
Defined.

Lemma detection_count_bounds_witness :
  exists (ctl : control) (s' : loop_state (E := stand_ins)),
    main (E := stand_ins) sample_script sample_ticks = Ok (ctl, s')
    /\ 0 <= detection_count s' <= 0 + 4.
Proof.
  destruct (main (E := stand_ins) sample_script sample_ticks)
    as [[ctl s']|e] eqn:Hrun; [|vm_compute in Hrun; discriminate].
  exists ctl, s'. split; [reflexivity|].
  apply (detection_count_bounds (E := stand_ins)
           (mk_loop_state (E := stand_ins) sample_script 0) s' sample_ticks ctl
           Hrun).
  simpl. lia.
Defined.

Lemma main_iteration_break_witness :
  exists s' : loop_state (E := stand_ins),
    main_iteration (E := stand_ins)
      (mk_loop_state (E := stand_ins) sample_script 0)
      (mk_tick (true, checkerboard 4 4) (ord_q + 256))
    = Ok (Break, s').
Proof.
  destruct (main_iteration (E := stand_ins)
              (mk_loop_state (E := stand_ins) sample_script 0)
              (mk_tick (true, checkerboard 4 4) (ord_q + 256)))
    as [[ctl s']|e] eqn:Hit; [|vm_compute in Hit; discriminate].
  exists s'. f_equal. f_equal.
  apply (proj1 (main_iteration_break (E := stand_ins) _ _ _ _ Hit)).
  right. reflexivity.
Defined.

(** X13. A frame without a flagged hand is neither blurred nor stamped
    with the warning: over hands none of which is flagged, the loop over
    the hands does not depend on the blur and on the text overlay, and
    when it ends normally it leaves the flag as it was. *)
Theorem unflagged_hands_not_redacted (E1 E2 : Externals)
  (multi_hand_landmarks : list (list Landmark.t)) :
  (forall (frame : ndarray) (hand : list Landmark.t),
      draw_landmarks (Externals := E1) frame hand
      = draw_landmarks (Externals := E2) frame hand) ->
  existsb flagged_hand multi_hand_landmarks = false ->
  forall (frame : ndarray) (detected : bool),
    process_hands (E := E1) frame detected multi_hand_landmarks
    = process_hands (E := E2) frame detected multi_hand_landmarks
    /\ forall (frame' : ndarray) (detected' : bool),
         process_hands (E := E1) frame detected multi_hand_landmarks
         = (frame', Ok detected') ->
         detected' = detected.
Proof.
  intros Hdraw.
  induction multi_hand_landmarks as [|hand rest IH]; intros Hnone frame detected.
  - split; [reflexivity|]. simpl. now intros frame' detected' [= _ <-].
  - simpl in Hnone. apply orb_false_iff in Hnone as [Hhand Hrest].
    unfold flagged_hand in Hhand. cbn [process_hands].
    destruct (is_middle_finger_up hand) as [[|]|]; [discriminate| |].
    + rewrite Hdraw.
      destruct (draw_landmarks (Externals := E2) frame hand)
        as [frame1 [[]|]].
      * apply (IH Hrest).
      * split; [reflexivity|discriminate].
    + split; [reflexivity|discriminate].
Qed.

Lemma unflagged_hands_not_redacted_witness :
  process_hands (E := stand_ins) (checkerboard 100 100) false
    [normal_sample; normal_sample]
  = process_hands (E := harsh_stand_ins) (checkerboard 100 100) false
      [normal_sample; normal_sample].
Proof.
  apply (unflagged_hands_not_redacted stand_ins harsh_stand_ins
           [normal_sample; normal_sample]).
  - reflexivity.
  - vm_compute. reflexivity.
Defined.

(** ** The program around the loop *)

Section ProgramFacts.

Context {E : Externals} {Sh : Shell E}.

(** Without an interrupt the body of the [try] statement is the loop of
    the iterations. *)
Lemma capture_loop_iterations (ticks : list tick) (rest : list occurrence) :
  forall s : loop_state,
    capture_loop s (map iteration ticks ++ rest)
    = match main_loop s ticks with
      | Ok (Continue, s1) => capture_loop s1 rest
      | Ok (Break, _) => Some loop_broke
      | Raise e => Some (loop_raised e)
      end.
Proof.
  induction ticks as [|t ticks' IH]; intros s; simpl; [reflexivity|].
  destruct (main_iteration s t) as [[[|] s1]|]; [apply IH|reflexivity..].
Qed.

(** An interrupt ends the loop, if nothing ended it before. *)
Lemma capture_loop_interrupted (occurrences : list occurrence) :
  In KeyboardInterrupt occurrences ->
  forall s : loop_state, capture_loop s occurrences <> None.
Proof.
  induction occurrences as [|[t|] occurrences' IH]; intros Hin s; simpl.
  - destruct Hin.
  - destruct Hin as [Hin|Hin]; [discriminate|].
    destruct (main_iteration s t) as [[[|] s1]|]; try discriminate.
    now apply IH.
  - discriminate.
Qed.

(** X18. Once the camera is open, [main] releases it however the loop is
    left. When [cap.release()] and [cv2.destroyAllWindows()] do not
    raise, [main] is either still in the loop, with no call but the
    opening of the camera, or it has released the camera, closed the
    windows and returned, with no exception escaping and no [sys.exit];
    it has as soon as a [KeyboardInterrupt] occurs, an iteration leaves
    the loop or an exception is raised in an iteration. *)
Theorem main_program_releases_camera (detector : provider)
  (occurrences : list occurrence) :
  started detector ->
  release = Ok tt -> destroyAllWindows = Ok tt ->
  (main_program occurrences = ([VideoCapture_called], None)
   \/ main_program occurrences
      = ([VideoCapture_called; release_called; destroyAllWindows_called],
         Some returns))
  /\ (In KeyboardInterrupt occurrences ->
      main_program occurrences
      = ([VideoCapture_called; release_called; destroyAllWindows_called],
         Some returns))
  /\ (forall (ticks : list tick) (rest : list occurrence),
        occurrences = map iteration ticks ++ rest ->
        (forall s' : loop_state,
            main_loop (mk_loop_state detector 0) ticks <> Ok (Continue, s')) ->
        main_program occurrences
        = ([VideoCapture_called; release_called; destroyAllWindows_called],
           Some returns)).
Proof.
  intros (Himp & Hhands & Hcam) Hrel Hwin.
  assert (Hprog : main_program occurrences
                  = match capture_loop (mk_loop_state detector 0) occurrences with
                    | None => ([VideoCapture_called], None)
                    | Some _ =>
                        ([VideoCapture_called; release_called;
                          destroyAllWindows_called], Some returns)
                    end).
  { unfold main_program, FingerBanDetector_init.
    rewrite Himp, Hhands, Hcam, Hrel, Hwin. simpl.
    now destruct (capture_loop _ _). }
  rewrite Hprog. split; [|split].
  - destruct (capture_loop _ _); auto.
  - intros Hin.
    pose proof (capture_loop_interrupted _ Hin (mk_loop_state detector 0)) as Hne.
    destruct (capture_loop _ _); [reflexivity|contradiction].
  - intros ticks rest -> Hend.
    rewrite capture_loop_iterations.
    destruct (main_loop _ ticks) as [[[|] s1]|]; try reflexivity.
    now destruct (Hend s1).
Qed.

(** X19. When a dependency cannot be imported, the detector cannot be
    built or the camera cannot be opened, [main] leaves through
    [sys.exit(1)] whatever would occur afterwards: no frame is read and
    [cap.release()] is not called; before the camera is asked for, no
    call is made on it at all. *)
Theorem main_program_startup_failure (occurrences : list occurrence) :
  import_dependencies = ImportError
  \/ (import_dependencies = imported /\ exists e, Hands = Raise e)
  \/ (import_dependencies = imported /\ (exists detector, Hands = Ok detector)
      /\ VideoCapture = Ok false) ->
  exists effects : list effect,
    main_program occurrences = (effects, Some (sys_exit 1))
    /\ ~ In release_called effects
    /\ (VideoCapture = Ok false \/ effects = []).
Proof.
  unfold main_program, FingerBanDetector_init.
  intros [->|[(-> & e & ->)|(-> & (detector & ->) & ->)]]; simpl.
  - exists []. repeat split; auto.
  - exists []. repeat split; auto.
  - exists [VideoCapture_called]. repeat split; auto.
    intros [H|[]]. discriminate.
Qed.

End ProgramFacts.

Lemma main_program_releases_camera_witness :
  main_program (Sh := ready_shell)
    [iteration (mk_tick (true, checkerboard 4 4) (-1)); KeyboardInterrupt]
  = ([VideoCapture_called; release_called; destroyAllWindows_called],
     Some returns)
  /\ main_program (Sh := ready_shell)
       (map iteration [mk_tick (true, checkerboard 4 4) ord_q] ++ [])
     = ([VideoCapture_called; release_called; destroyAllWindows_called],
        Some returns).
Proof.
  assert (Hs : started (Sh := ready_shell) sample_script)
    by (repeat split).
  split.
  - apply (proj1 (proj2 (main_program_releases_camera (Sh := ready_shell)
                           sample_script _ Hs eq_refl eq_refl))).
    right. left. reflexivity.
  - apply (proj2 (proj2 (main_program_releases_camera (Sh := ready_shell)
                           sample_script _ Hs eq_refl eq_refl))
             [mk_tick (true, checkerboard 4 4) ord_q] [] eq_refl).
    intros s'. vm_compute. discriminate.
Defined.

Lemma main_program_startup_failure_witness :
  exists effects : list effect,
    main_program (Sh := no_camera_shell)
      [iteration (mk_tick (true, checkerboard 4 4) (-1))]
    = (effects, Some (sys_exit 1))
    /\ ~ In release_called effects
    /\ (VideoCapture (Shell := no_camera_shell) = Ok false \/ effects = []).
Proof.
  apply (main_program_startup_failure (Sh := no_camera_shell)).
  right. right. repeat split. exists sample_script. reflexivity.
Defined.

(** ** The setup check *)

(** X20. When no import raises anything but [ImportError],
    [check_dependencies] returns the pip names of exactly the modules
    that could not be imported, each once: the list is empty if and only
    if the three imports succeed, and [cv2] is listed under the name
    [opencv-python]. *)
Theorem check_dependencies_lists_failed_imports
  (cv2 mediapipe numpy : import_outcome) (missing_deps : list String.string) :
  SetupCheck.check_dependencies cv2 mediapipe numpy = Ok missing_deps ->
  (In "opencv-python"%string missing_deps <-> cv2 = ImportError)
  /\ (In "mediapipe"%string missing_deps <-> mediapipe = ImportError)
  /\ (In "numpy"%string missing_deps <-> numpy = ImportError)
  /\ (missing_deps = [] <->
      cv2 = imported /\ mediapipe = imported /\ numpy = imported)
  /\ NoDup missing_deps
  /\ (forall name : String.string,
        In name missing_deps ->
        In name ["opencv-python"; "mediapipe"; "numpy"]%string).
Proof.
  unfold SetupCheck.check_dependencies, SetupCheck.try_import.
  destruct cv2, mediapipe, numpy; simpl; intros H;
    try discriminate H. 
  all: injection H as <-.
  all: repeat split.
  all: try (intros H; simpl in H; intuition (discriminate || congruence)).
  all: try (intros; discriminate).
  all: try (simpl; now auto).
  all: try (repeat constructor; simpl; intuition discriminate).
  all: try (intros name H; simpl in *; tauto).
Qed.

Lemma check_dependencies_lists_failed_imports_witness :
  In "opencv-python"%string ["opencv-python"; "numpy"]%string
  <-> ImportError = ImportError.
Proof.
  apply (check_dependencies_lists_failed_imports ImportError imported
           ImportError ["opencv-python"; "numpy"]%string).
  reflexivity.
Defined.

(** The three ways [check_dependencies] ends. *)
Lemma check_dependencies_cases (cv2 mediapipe numpy : import_outcome) :
  (exists e,
      SetupCheck.check_dependencies cv2 mediapipe numpy = Raise e
      /\ ~ (cv2 = imported /\ mediapipe = imported /\ numpy = imported))
  \/ (SetupCheck.check_dependencies cv2 mediapipe numpy = Ok []
      /\ cv2 = imported /\ mediapipe = imported /\ numpy = imported)
  \/ (exists name rest,
        SetupCheck.check_dependencies cv2 mediapipe numpy = Ok (name :: rest)
        /\ ~ (cv2 = imported /\ mediapipe = imported /\ numpy = imported)).
Proof.
  unfold SetupCheck.check_dependencies, SetupCheck.try_import.
  destruct cv2, mediapipe, numpy; simpl;
    try (left; eexists; (split; [reflexivity|]);
         intros (H1 & H2 & H3); discriminate);
    try (right; left; repeat split; reflexivity);
    right; right; do 2 eexists; (split; [reflexivity|]);
    intros (H1 & H2 & H3); discriminate.
Qed.

(** Membership in a short list of distinct constructors that does not
    hold. *)
Ltac no_member :=
  repeat match goal with
         | H : _ \/ _ |- _ => destruct H as [H|H]
         | H : False |- _ => destruct H
         | H : _ = _ |- _ => discriminate H
         end.

(** X21. The setup check starts the application only when the three
    imports succeed, and touches the camera only through it. A
    [sys.exit] of the application passes through the handler of the
    setup check, while an exception that escapes from the application is
    caught; with a missing dependency the user is asked once and the
    demo runs only on the answer [y] or [yes]. *)
Theorem setup_check_main_dispatch
  (cv2 mediapipe numpy : import_outcome)
  (input : result String.string) (lower strip : String.string -> String.string)
  (import_main : import_outcome)
  (application : list effect * option termination)
  (actions : list SetupCheck.action) (effects : list effect)
  (outcome : option termination) :
  SetupCheck.main cv2 mediapipe numpy input lower strip import_main application
  = (actions, effects, outcome) ->
  (In SetupCheck.started_application actions <->
   cv2 = imported /\ mediapipe = imported /\ numpy = imported
   /\ import_main = imported)
  /\ (In SetupCheck.started_application actions ->
      effects = fst application
      /\ (forall code : Z,
            snd application = Some (sys_exit code) ->
            outcome = Some (sys_exit code))
      /\ (forall e : Py.exn,
            snd application = Some (escapes e) -> outcome = Some returns))
  /\ (~ In SetupCheck.started_application actions -> effects = [])
  /\ (In SetupCheck.ran_demo_mode actions ->
      In SetupCheck.asked_for_choice actions
      /\ exists line : String.string,
           input = Ok line /\ SetupCheck.is_yes (strip (lower line)) = true).
Proof.
  unfold SetupCheck.main.
  destruct application as [app_effects app_outcome].
  assert (Hdemo : SetupCheck.demo_mode = Ok (true, false))
    by (vm_compute; reflexivity).
  rewrite Hdemo.
  destruct (check_dependencies_cases cv2 mediapipe numpy)
    as [(e & -> & Hmissing)|[(-> & -> & -> & ->)
                             |(name & rest & -> & Hmissing)]].
  - intros [= <- <- <-]. simpl. repeat split; tauto.
  - destruct import_main; intros [= <- <- <-]; simpl.
    + repeat split; auto;
        try (now intros ? ->);
        try (intros H; exfalso; apply H; now left);
        try (intros [H|[]]; discriminate);
        match goal with
        | H : _ = _ \/ False |- _ => destruct H as [H|[]]; discriminate H
        end.
    + repeat split; try tauto; try (intros (_ & _ & _ & H); discriminate).
    + repeat split; try tauto; try (intros (_ & _ & _ & H); discriminate).
  - destruct input as [line|e];
      [destruct (SetupCheck.is_yes (strip (lower line))) eqn:Hyes|];
      intros [= <- <- <-]; simpl;
      (split; [split; [intros Hin; exfalso; no_member
                      |intros (H1 & H2 & H3 & _); exfalso; apply Hmissing;
                       now auto]|]);
      (split; [intros Hin; exfalso; no_member|]);
      (split; [reflexivity|]);
      intros Hin; try solve [exfalso; no_member].
    split; [now left|]. exists line. now split.
Qed.

Lemma setup_check_main_dispatch_witness :
  exists (actions : list SetupCheck.action) (effects : list effect),
    SetupCheck.main imported imported imported (Raise Py.OtherException)
      (fun line => line) (fun line => line) imported
      (main_program (Sh := no_camera_shell) [])
    = (actions, effects, Some (sys_exit 1))
    /\ In SetupCheck.started_application actions.
Proof.
  destruct (SetupCheck.main imported imported imported
              (Raise Py.OtherException) (fun line => line) (fun line => line)
              imported (main_program (Sh := no_camera_shell) []))
    as [[actions effects] outcome] eqn:Hmain.
  destruct (setup_check_main_dispatch _ _ _ _ _ _ _ _ _ _ _ Hmain)
    as (Hstart & Happ & _).
  assert (Hin : In SetupCheck.started_application actions)
    by (apply Hstart; repeat split).
  destruct (Happ Hin) as (_ & Hexit & _).
  rewrite (Hexit 1 eq_refl).
  exists actions, effects. split; [reflexivity|exact Hin].
Defined.
